(** * PULEP events scraper: a shallow embedding of [scraper.py]

    The development follows the source file top to bottom.  Python values
    are an inductive type, Python dictionaries are insertion-ordered
    association lists, a parsed HTML document is a tree of nodes, a pandas
    DataFrame is a list of column names with positional rows, and the HTTP
    session is an explicit world state threaded through every request by a
    small state-and-exception monad.

    Functions of libraries outside the repository (str.strip, str.lower,
    urljoin, the BeautifulSoup parser, ...) are operations of the class
    [PyLib]; the network is the class [Net].  Every theorem holds for all
    their instances. *)

From Stdlib Require Import List String Ascii ZArith Lia Bool Arith.
From Stdlib Require Import SpecFloat DecimalString.
Import ListNotations.
Local Open Scope string_scope.
Local Open Scope list_scope.
Set Warnings "-register-all".

(* ===================================================================== *)
(** ** Python values *)
(* ===================================================================== *)

(** The values a decoded JSON document or a DataFrame cell can hold.
    Floats keep the IEEE classification of [SpecFloat]; pandas marks a
    missing cell with the float NaN. *)
Inductive pyval : Type :=
| PNone
| PBool (b : bool)
| PInt (z : Z)
| PFloat (f : spec_float)
| PStr (s : string)
| PList (l : list pyval)
| PDict (d : list (string * pyval)).

Definition nan : pyval := PFloat S754_nan.

(** [bool(s)] for a string: non-empty. *)
Definition nonempty (s : string) : bool :=
  match s with EmptyString => false | String _ _ => true end.

(** [bool(v)]: the truth value Python gives a value in [if v] and [v or d]. *)
Definition py_truthy (v : pyval) : bool :=
  match v with
  | PNone => false
  | PBool b => b
  | PInt z => negb (Z.eqb z 0)
  | PFloat (S754_zero _) => false
  | PFloat _ => true
  | PStr s => nonempty s
  | PList l => match l with [] => false | _ :: _ => true end
  | PDict d => match d with [] => false | _ :: _ => true end
  end.

(** [a or b]. *)
Definition py_or (a b : pyval) : pyval := if py_truthy a then a else b.

(** [str(n)] for an integer. *)
Definition str_of_Z (z : Z) : string := NilZero.string_of_int (Z.to_int z).

(* ===================================================================== *)
(** ** Insertion-ordered dictionaries *)
(* ===================================================================== *)

(** A Python [dict]: keys are unique, a new key goes to the end, an
    assignment to an existing key keeps the key's position. *)
Module Dict.

Definition t (V : Type) : Type := list (string * V).

Fixpoint get {V : Type} (k : string) (d : t V) : option V :=
  match d with
  | [] => None
  | (k', v) :: r => if String.eqb k' k then Some v else get k r
  end.

(** [d[k] = v] *)
Fixpoint set {V : Type} (k : string) (v : V) (d : t V) : t V :=
  match d with
  | [] => [(k, v)]
  | (k', v') :: r =>
      if String.eqb k' k then (k', v) :: r else (k', v') :: set k v r
  end.

(** [k in d] *)
Definition mem {V : Type} (k : string) (d : t V) : bool :=
  match get k d with Some _ => true | None => false end.

Definition keys {V : Type} (d : t V) : list string := map fst d.

End Dict.

(** [d.get(k)] on a decoded JSON object: the value, or [None]. *)
Definition py_get (k : string) (d : Dict.t pyval) : pyval :=
  match Dict.get k d with Some v => v | None => PNone end.

(* ===================================================================== *)
(** ** Exceptions and the session monad *)
(* ===================================================================== *)

(** The exception classes the program can meet.  [JSONDecodeError] is the
    one of [requests], a subclass of both [RequestException] and
    [ValueError]; HTTP status errors and timeouts are [RequestException]s. *)
Inductive exn : Type :=
| RequestException (msg : string)
| JSONDecodeError (msg : string)
| ValueError (msg : string)
| TypeError (msg : string)
| OverflowError (msg : string).

Definition isinstance_RequestException (e : exn) : bool :=
  match e with
  | RequestException _ | JSONDecodeError _ => true
  | _ => false
  end.

Definition isinstance_ValueError (e : exn) : bool :=
  match e with
  | JSONDecodeError _ | ValueError _ => true
  | _ => false
  end.

(** [str(exc)] *)
Definition exn_str (e : exn) : string :=
  match e with
  | RequestException m | JSONDecodeError m | ValueError m
  | TypeError m | OverflowError m => m
  end.

Inductive outcome (A : Type) : Type :=
| Ok (a : A)
| Raise (e : exn).
Arguments Ok {A} a.
Arguments Raise {A} e.

(* ===================================================================== *)
(** ** Parsed HTML *)
(* ===================================================================== *)

(** A BeautifulSoup tree.  [NText true s] is a text node that [get_text]
    reports (a NavigableString or CDATA section); [NText false s] is one it
    leaves out (comment, doctype, declaration, script or style body).
    [NTag name attrs children] is a tag; the document object itself is a tag
    named "[document]".  Attribute values of the names this program reads
    (name, id, value, href) are strings. *)
Inductive node : Type :=
| NText (shown : bool) (s : string)
| NTag (name : string) (attrs : Dict.t string) (children : list node).

(** [bool(element)]: a tag is always true, a string is true when non-empty. *)
Definition node_truthy (n : node) : bool :=
  match n with
  | NText _ s => nonempty s
  | NTag _ _ _ => true
  end.

(** [tag.descendants]: every node below [n], in document order. *)
Fixpoint descendants (n : node) : list node :=
  match n with
  | NText _ _ => []
  | NTag _ _ cs =>
      (fix go (l : list node) : list node :=
         match l with
         | [] => []
         | c :: r => c :: descendants c ++ go r
         end) cs
  end.

(** The same walk, each node paired with its [next_sibling]. *)
Fixpoint descendants_sib (n : node) : list (node * option node) :=
  match n with
  | NText _ _ => []
  | NTag _ _ cs =>
      (fix go (l : list node) : list (node * option node) :=
         match l with
         | [] => []
         | c :: r => (c, hd_error r) :: descendants_sib c ++ go r
         end) cs
  end.

Definition is_tag (names : list string) (n : node) : bool :=
  match n with
  | NText _ _ => false
  | NTag nm _ _ => existsb (String.eqb nm) names
  end.

(** [tag.find_all(names)] *)
Definition find_all (names : list string) (n : node) : list node :=
  filter (is_tag names) (descendants n).

(** [tag.find(name)] *)
Definition find (name : string) (n : node) : option node :=
  hd_error (find_all [name] n).

(** [tag.get(attr)] *)
Definition attr (a : string) (n : node) : option string :=
  match n with
  | NText _ _ => None
  | NTag _ attrs _ => Dict.get a attrs
  end.

(** [tag.find("a", href=True)]: the first anchor below [n] that has an
    href attribute, whatever its value. *)
Definition find_link (n : node) : option node :=
  hd_error
    (filter (fun a => match attr "href" a with Some _ => true | None => false end)
            (find_all ["a"] n)).

(** The strings [get_text] visits, in document order. *)
Fixpoint all_strings (n : node) : list string :=
  match n with
  | NText shown s => if shown then [s] else []
  | NTag _ _ cs =>
      (fix go (l : list node) : list string :=
         match l with
         | [] => []
         | c :: r => all_strings c ++ go r
         end) cs
  end.

(** [s.rstrip(":")] *)
Fixpoint rstrip_colon (s : string) : string :=
  match s with
  | EmptyString => EmptyString
  | String c r =>
      match rstrip_colon r with
      | EmptyString => if Ascii.eqb c ":"%char then EmptyString else String c EmptyString
      | r' => String c r'
      end
  end.

(** [needle in hay] *)
Fixpoint contains (needle hay : string) : bool :=
  String.prefix needle hay
  || match hay with
     | EmptyString => false
     | String _ r => contains needle r
     end.

(* ===================================================================== *)
(** ** DataFrames *)
(* ===================================================================== *)

(** A pandas DataFrame: column labels in order, and one list of cells per
    row, positionally aligned with the labels.  A cell holds the Python
    value that [tolist] and [map] hand back for it; an absent cell is the
    float NaN. *)
Record DataFrame : Type := mkDataFrame {
  df_columns : list string;
  df_values : list (list pyval)
}.

(** [pd.DataFrame()] *)
Definition empty_frame : DataFrame := mkDataFrame [] [].

(** [df.empty]: some axis has length zero. *)
Definition df_empty (df : DataFrame) : bool :=
  match df_columns df, df_values df with
  | [], _ => true
  | _, [] => true
  | _, _ => false
  end.

(** [len(df)] *)
Definition df_len (df : DataFrame) : nat := List.length (df_values df).

Fixpoint col_index (c : string) (cols : list string) : option nat :=
  match cols with
  | [] => None
  | c' :: r =>
      if String.eqb c' c then Some 0%nat
      else match col_index c r with Some j => Some (S j) | None => None end
  end.

(** [c in df.columns] *)
Definition df_has (c : string) (df : DataFrame) : bool :=
  match col_index c (df_columns df) with Some _ => true | None => false end.

(** [df.get(c, pd.Series(dtype=str)).tolist()] *)
Definition df_col (c : string) (df : DataFrame) : list pyval :=
  match col_index c (df_columns df) with
  | Some j => map (fun r => nth j r nan) (df_values df)
  | None => []
  end.

(** The cell of row [i] under column [c]. *)
Definition df_cell (df : DataFrame) (i : nat) (c : string) : option pyval :=
  match col_index c (df_columns df), nth_error (df_values df) i with
  | Some j, Some r => nth_error r j
  | _, _ => None
  end.

Fixpoint replace_nth {A : Type} (j : nat) (x : A) (l : list A) : list A :=
  match l, j with
  | [], _ => []
  | _ :: r, O => x :: r
  | y :: r, S j' => y :: replace_nth j' x r
  end.

(** [df[c] = vals], with one value per row: an existing column is
    overwritten in place, a new one is appended on the right. *)
Definition df_set_col (c : string) (vals : list pyval) (df : DataFrame) : DataFrame :=
  match col_index c (df_columns df) with
  | Some j =>
      mkDataFrame (df_columns df)
        (map (fun rv => replace_nth j (snd rv) (fst rv)) (combine (df_values df) vals))
  | None =>
      mkDataFrame (df_columns df ++ [c])
        (map (fun rv => fst rv ++ [snd rv]) (combine (df_values df) vals))
  end.

(** [df[c] = v] for a scalar [v], broadcast to every row. *)
Definition df_set_scalar (c : string) (v : pyval) (df : DataFrame) : DataFrame :=
  df_set_col c (repeat v (df_len df)) df.

(** Column labels of a list of records: the union of their keys in order
    of first appearance. *)
Definition add_key (cols : list string) (k : string) : list string :=
  if existsb (String.eqb k) cols then cols else cols ++ [k].

Definition union_keys (recs : list (Dict.t pyval)) : list string :=
  fold_left (fun cols r => fold_left add_key (Dict.keys r) cols) recs [].

Definition project (cols : list string) (r : Dict.t pyval) : list pyval :=
  map (fun c => match Dict.get c r with Some v => v | None => nan end) cols.

(** The objects [pd.DataFrame(records)] assembles from a list of
    dictionaries: the columns are the union of the keys in order of first
    appearance, and a key a record lacks is NaN in that row.  For records
    of strings (the rows [parse_events_table] reads and the detail records)
    this is the frame itself: a column of strings holds its strings, and
    NaN where one is absent.  For the decoded rows of the grid pandas goes
    on to infer a dtype for each column, see [infer_dtypes]. *)
Definition frame_of_records (recs : list (Dict.t pyval)) : DataFrame :=
  mkDataFrame (union_keys recs) (map (project (union_keys recs)) recs).


Fixpoint as_records (data : list pyval) : option (list (Dict.t pyval)) :=
  match data with
  | [] => Some []
  | PDict d :: r =>
      match as_records r with Some ds => Some (d :: ds) | None => None end
  | _ :: _ => None
  end.

(* ===================================================================== *)
(** ** Library operations and the network *)
(* ===================================================================== *)

(** Operations of Python and of the libraries the program imports. *)
Class PyLib : Type := {
  (** [s.strip()] *)
  str_strip : string -> string;
  (** [s.lower()] *)
  str_lower : string -> string;
  (** [list(s)] for a string: its characters *)
  str_chars : string -> list string;
  (** [int(s)] for a string; [None] stands for its ValueError *)
  int_of_str : string -> option Z;
  (** [str(v)] for finite non-zero floats, lists and dictionaries *)
  repr_other : pyval -> string;
  (** [urllib.parse.urljoin] *)
  urljoin : string -> string -> string;
  (** [BeautifulSoup(html, "html.parser")] *)
  parse_html : string -> node;
  (** [str(element)]: the markup of a tag, the text of a string *)
  node_str : node -> string;
  (** [pd.DataFrame(data)] when some element of [data] is not a dictionary *)
  frame_of_irregular : list pyval -> outcome DataFrame;
  (** The dtype inference of pandas ([maybe_convert_objects]):
      [convert_object col v] is the value a column assembled from the
      objects [col] holds for its object [v].  A column of integers with
      an absent or null cell becomes float64, holding 5 as 5.0 and None as
      NaN; a column of strings keeps its strings. *)
  convert_object : list pyval -> pyval -> pyval
}.

(** What the program reads of a [requests.Response].  [json] is the decoded
    body, [None] when the body is not JSON. *)
Record Response : Type := mkResponse {
  status_code : nat;
  text : string;
  json : option pyval
}.

(** One request either fails in transport (timeout, connection error,
    invalid URL: a [RequestException] with that message) or is answered. *)
Inductive reply : Type :=
| Failed (msg : string)
| Replied (r : Response).

(** The session and the server behind it.  [World] holds everything a
    request can depend on and change (cookies, the filters the server
    remembers for the session, time). *)
Class Net : Type := {
  World : Type;
  (** [session.get(url, params=..., timeout=40)] *)
  session_get : string -> Dict.t string -> World -> World * reply;
  (** [session.post(url, data=..., timeout=40)] *)
  session_post : string -> Dict.t string -> World -> World * reply;
  (** the message of the HTTPError [raise_for_status] builds *)
  status_error : Response -> string
}.

Section Scraper.
Context {lib : PyLib} {net : Net}.

(** Computations on the session: a state monad over [World] with
    exceptions. *)
Definition M (A : Type) : Type := World -> World * outcome A.

Definition ret {A : Type} (a : A) : M A := fun w => (w, Ok a).

Definition raise {A : Type} (e : exn) : M A := fun w => (w, Raise e).

Definition lift {A : Type} (o : outcome A) : M A := fun w => (w, o).

Definition bind {A B : Type} (m : M A) (f : A -> M B) : M B :=
  fun w =>
    match m w with
    | (w', Ok a) => f a w'
    | (w', Raise e) => (w', Raise e)
    end.

(** [try: m  except <classes>: h] *)
Definition try_except {A : Type} (m : M A) (catches : exn -> bool) (h : exn -> M A) : M A :=
  fun w =>
    match m w with
    | (w', Ok a) => (w', Ok a)
    | (w', Raise e) => if catches e then h e w' else (w', Raise e)
    end.

Notation "x <- m ;; k" := (bind m (fun x => k))
  (at level 61, m at next level, right associativity).

Definition get (url : string) (params : Dict.t string) : M Response :=
  fun w =>
    match session_get url params w with
    | (w', Failed msg) => (w', Raise (RequestException msg))
    | (w', Replied r) => (w', Ok r)
    end.

Definition post (url : string) (data : Dict.t string) : M Response :=
  fun w =>
    match session_post url data w with
    | (w', Failed msg) => (w', Raise (RequestException msg))
    | (w', Replied r) => (w', Ok r)
    end.

(** [response.raise_for_status()]: HTTPError on a 4xx or 5xx status. *)
Definition raise_for_status (r : Response) : M unit :=
  if (400 <=? status_code r)%nat && (status_code r <? 600)%nat
  then raise (RequestException (status_error r))
  else ret tt.

(** [response.json()] *)
Definition response_json (r : Response) : M pyval :=
  match json r with
  | Some v => ret v
  | None => raise (JSONDecodeError "Expecting value")
  end.

(* ===================================================================== *)
(** ** Python built-ins on values *)
(* ===================================================================== *)

(** [str(v)], also what [format] and [requests] make of a value. *)
Definition py_str (v : pyval) : string :=
  match v with
  | PNone => "None"
  | PBool true => "True"
  | PBool false => "False"
  | PInt z => str_of_Z z
  | PStr s => s
  | PFloat S754_nan => "nan"
  | PFloat (S754_infinity false) => "inf"
  | PFloat (S754_infinity true) => "-inf"
  | PFloat (S754_zero false) => "0.0"
  | PFloat (S754_zero true) => "-0.0"
  | _ => repr_other v
  end.

(** [int(f)] for a float: truncation toward zero. *)
Definition float_trunc (f : spec_float) : outcome Z :=
  match f with
  | S754_zero _ => Ok 0%Z
  | S754_infinity _ => Raise (OverflowError "cannot convert float infinity to integer")
  | S754_nan => Raise (ValueError "cannot convert float NaN to integer")
  | S754_finite s m e =>
      let mag := if (0 <=? e)%Z then (Z.pos m * 2 ^ e)%Z else (Z.pos m / 2 ^ (- e))%Z in
      Ok (if s then (- mag)%Z else mag)
  end.

(** [int(v)] *)
Definition py_int (v : pyval) : outcome Z :=
  match v with
  | PBool b => Ok (if b then 1%Z else 0%Z)
  | PInt z => Ok z
  | PFloat f => float_trunc f
  | PStr s =>
      match int_of_str s with
      | Some z => Ok z
      | None => Raise (ValueError "invalid literal for int() with base 10")
      end
  | PNone | PList _ | PDict _ =>
      Raise (TypeError "int() argument must be a string, a bytes-like object or a real number")
  end.

(** The elements [list(v)] and [l.extend(v)] take from [v]. *)
Definition py_iter (v : pyval) : outcome (list pyval) :=
  match v with
  | PList l => Ok l
  | PStr s => Ok (map PStr (str_chars s))
  | PDict d => Ok (map (fun kv => PStr (fst kv)) d)
  | PNone | PBool _ | PInt _ | PFloat _ => Raise (TypeError "object is not iterable")
  end.

(** [range(a, b)] *)
Definition py_range (a b : Z) : list Z :=
  map (fun i => (a + Z.of_nat i)%Z) (seq 0 (Z.to_nat (b - a))).

(** [l[:m]] *)
Definition py_slice_to {A : Type} (m : Z) (l : list A) : list A :=
  if (m <? 0)%Z then firstn (List.length l - Z.to_nat (- m)) l
  else firstn (Z.to_nat m) l.

(** [enumerate(l, start)] *)
Fixpoint enumerate {A : Type} (start : nat) (l : list A) : list (nat * A) :=
  match l with
  | [] => []
  | x :: r => (start, x) :: enumerate (S start) r
  end.

(** [tag.get_text(sep, strip=True)]: the shown strings below the tag, each
    stripped, the empty ones dropped, joined with [sep]. *)
Definition get_text (sep : string) (n : node) : string :=
  String.concat sep (filter nonempty (map str_strip (all_strings n))).

(** The values of the column at position [j]. *)
Definition column_at (j : nat) (rows : list (list pyval)) : list pyval :=
  map (fun r => nth j r nan) rows.

(** Dtype inference, column by column: every cell holds what
    [convert_object] makes of its object among the objects of its column. *)
Definition infer_row (rows : list (list pyval)) (r : list pyval) : list pyval :=
  map (fun jv => convert_object (column_at (fst jv) rows) (snd jv)) (enumerate 0 r).

Definition infer_dtypes (df : DataFrame) : DataFrame :=
  mkDataFrame (df_columns df) (map (infer_row (df_values df)) (df_values df)).

(** [pd.DataFrame(data)] for decoded JSON. *)
Definition pd_DataFrame (data : list pyval) : outcome DataFrame :=
  match as_records data with
  | Some recs => Ok (infer_dtypes (frame_of_records recs))
  | None => frame_of_irregular data
  end.

(* ===================================================================== *)
(** ** scraper.py *)
(* ===================================================================== *)

Definition BASE_URL : string := "https://pulepapp.mincultura.gov.co".
Definition EVENTS_PATH : string := "/InformesPublicos/Eventos".
Definition EVENTS_GRID_PATH : string := "/InformesPublicos/ObtenerEventos".
(** ["/InformesPublicos/EventoFichap/{evento_id}".format(evento_id=v)] *)
Definition EVENT_DETAIL_PATH (evento_id : pyval) : string :=
  "/InformesPublicos/EventoFichap/" ++ py_str evento_id.

Definition _get_events_page (params : Dict.t string) : M string :=
  response <- get (urljoin BASE_URL EVENTS_PATH) params ;;
  _ <- raise_for_status response ;;
  ret (text response).

Definition _fetch_events_grid_page (filters : Dict.t string) (page rows : Z)
  : M (Dict.t pyval) :=
  primed <- get (urljoin BASE_URL EVENTS_PATH) filters ;;
  _ <- raise_for_status primed ;;
  let payload :=
    [("_search", "false"); ("nd", "0"); ("rows", str_of_Z rows);
     ("page", str_of_Z page); ("sidx", ""); ("sord", "asc")] in
  response <- post (urljoin BASE_URL EVENTS_GRID_PATH) payload ;;
  _ <- raise_for_status response ;;
  data <- response_json response ;;
  match data with
  | PDict d => ret d
  | _ => raise (ValueError "Respuesta inesperada del endpoint de eventos")
  end.

Definition _build_detail_url (evento_id : pyval) : string :=
  match evento_id with
  | PNone => ""
  | _ => urljoin BASE_URL (EVENT_DETAIL_PATH evento_id)
  end.

(** [o or ""] for an attribute that may be missing. *)
Definition or_empty (o : option string) : string :=
  match o with Some s => s | None => "" end.

(** [select.get("name") or select.get("id")] *)
Definition select_name (select : node) : option string :=
  match attr "name" select with
  | Some n => if nonempty n then Some n else attr "id" select
  | None => attr "id" select
  end.

(** One turn of the loop over the options of a select. *)
Definition option_entry (options : Dict.t string) (option : node) : Dict.t string :=
  let value := str_strip (or_empty (attr "value" option)) in
  let label := get_text "" option in
  if nonempty value || nonempty label
  then Dict.set (if nonempty label then label else value) value options
  else options.

(** One turn of the loop over the selects of the form. *)
Definition select_entry (filters : Dict.t (Dict.t string)) (select : node)
  : Dict.t (Dict.t string) :=
  match select_name select with
  | Some name =>
      if nonempty name
      then Dict.set name (fold_left option_entry (find_all ["option"] select) []) filters
      else filters
  | None => filters
  end.

Definition extract_filter_options (html : string) : Dict.t (Dict.t string) :=
  let soup := parse_html html in
  match find "form" soup with
  | None => []
  | Some form => fold_left select_entry (find_all ["select"] form) []
  end.

(** [any("evento" in h for h in headers)] over the header cells of a table. *)
Definition mentions_evento (table : node) : bool :=
  existsb (contains "evento")
          (map (fun h => str_lower (get_text " " h)) (find_all ["th"] table)).

Definition _find_results_table (soup : node) : option node :=
  match find_all ["table"] soup with
  | [] => None
  | first :: rest =>
      match List.find mentions_evento (first :: rest) with
      | Some table => Some table
      | None => Some first
      end
  end.

(** [headers[idx] if idx < len(headers) else f"col_{idx+1}"] *)
Definition column_name (headers : list string) (idx : nat) : string :=
  match nth_error headers idx with
  | Some h => h
  | None => "col_" ++ str_of_Z (Z.of_nat idx + 1)
  end.

(** The dictionary of one table row; [None] for a row without data cells. *)
Definition row_dict (headers : list string) (tr : node) : option (Dict.t pyval) :=
  match find_all ["td"] tr with
  | [] => None
  | cells =>
      let row := map (get_text " ") cells in
      let d := fold_left
                 (fun d iv => Dict.set (column_name headers (fst iv)) (PStr (snd iv)) d)
                 (enumerate 0 row) [] in
      Some (Dict.set "detalle_url"
              (PStr (match find_link tr with
                     | Some a => urljoin BASE_URL (or_empty (attr "href" a))
                     | None => ""
                     end)) d)
  end.

Definition table_records (table : node) : list (Dict.t pyval) :=
  let headers :=
    map (get_text " ")
        (match find "thead" table with
         | Some header_cells => find_all ["th"] header_cells
         | None => find_all ["th"] table
         end) in
  let body := match find "tbody" table with Some b => b | None => table end in
  flat_map (fun tr => match row_dict headers tr with Some d => [d] | None => [] end)
           (find_all ["tr"] body).

Definition parse_events_table (html : string) : DataFrame :=
  let soup := parse_html html in
  match _find_results_table soup with
  | None => empty_frame
  | Some table => frame_of_records (table_records table)
  end.

(** Strategy (a) of [parse_event_detail]: the pair a table row yields. *)
Definition row_pair (tr : node) : option (string * string) :=
  match find_all ["th"; "td"] tr with
  | c0 :: c1 :: _ =>
      let key := get_text " " c0 in
      let value := get_text " " c1 in
      if nonempty key then Some (key, value) else None
  | _ => None
  end.

(** The rows the two nested loops visit, in the order they visit them. *)
Definition table_rows (soup : node) : list node :=
  flat_map (find_all ["tr"]) (find_all ["table"] soup).

(** The rows below [n] that lie in a table, each once, in document order;
    [inside] tells whether [n] itself lies in a table. *)
Fixpoint rows_in_tables (inside : bool) (n : node) : list node :=
  match n with
  | NText _ _ => []
  | NTag nm _ cs =>
      (fix go (l : list node) : list node :=
         match l with
         | [] => []
         | c :: r =>
             (if (inside || String.eqb nm "table") && is_tag ["tr"] c then [c] else [])
             ++ rows_in_tables (inside || String.eqb nm "table") c ++ go r
         end) cs
  end.

(** The table rows of a document in document order. *)
Definition document_rows (soup : node) : list node := rows_in_tables false soup.

(** No table of the document lies in another table. *)
Definition tables_not_nested (soup : node) : Prop :=
  forall table, In table (find_all ["table"] soup) -> find_all ["table"] table = [].

Definition table_step (data : Dict.t string) (tr : node) : Dict.t string :=
  match row_pair tr with
  | Some (key, value) => Dict.set key value data
  | None => data
  end.

Definition table_strategy (soup : node) (data : Dict.t string) : Dict.t string :=
  fold_left table_step (table_rows soup) data.

(** Strategy (b): the pair a label-like element offers, from its text and
    its next sibling. *)
Definition label_pair (ls : node * option node) : option (string * string) :=
  let key := rstrip_colon (get_text " " (fst ls)) in
  if nonempty key then
    let sibling_text :=
      match snd ls with
      | Some next_node =>
          if node_truthy next_node then str_strip (node_str next_node) else ""
      | None => ""
      end in
    if nonempty sibling_text
    then Some (key, get_text " " (parse_html sibling_text))
    else None
  else None.

Definition labels (soup : node) : list (node * option node) :=
  filter (fun ls => is_tag ["label"; "strong"; "b"] (fst ls)) (descendants_sib soup).

Definition label_step (data : Dict.t string) (ls : node * option node) : Dict.t string :=
  match label_pair ls with
  | Some (key, value) => if Dict.mem key data then data else Dict.set key value data
  | None => data
  end.

Definition label_strategy (soup : node) (data : Dict.t string) : Dict.t string :=
  fold_left label_step (labels soup) data.

Definition parse_event_detail (html : string) : Dict.t string :=
  let soup := parse_html html in
  let data := label_strategy soup (table_strategy soup []) in
  match data with
  | [] => Dict.set "contenido" (get_text " " soup) data
  | _ :: _ => data
  end.

(** [page.get("rows") or []], as the elements [list] and [extend] take. *)
Definition page_rows (page_data : Dict.t pyval) : outcome (list pyval) :=
  py_iter (py_or (py_get "rows" page_data) (PList [])).

(** The loop over pages 2 .. total. *)
Fixpoint paginate (filters : Dict.t string) (pages : list Z) (rows_data : list pyval)
  : M (list pyval) :=
  match pages with
  | [] => ret rows_data
  | current_page :: rest =>
      page_data <- _fetch_events_grid_page filters current_page 100 ;;
      more <- lift (page_rows page_data) ;;
      paginate filters rest (rows_data ++ more)
  end.

(** The detail-link column of the grid frame. *)
Definition add_detail_urls (basic_df : DataFrame) : DataFrame :=
  if negb (df_empty basic_df) && df_has "EventoId" basic_df
  then df_set_col "detalle_url"
         (map (fun v => PStr (_build_detail_url v)) (df_col "EventoId" basic_df))
         basic_df
  else if negb (df_has "detalle_url" basic_df)
  then df_set_scalar "detalle_url" (PStr "") basic_df
  else basic_df.

(** Lines 186-193: the rows of all grid pages. *)
Definition grid_rows (filters : Dict.t string) : M (list pyval) :=
  first_page <- _fetch_events_grid_page filters 1 100 ;;
  total_pages <- lift (py_int (py_or (py_get "total" first_page) (PInt 0))) ;;
  rows_data <- lift (page_rows first_page) ;;
  paginate filters (py_range 2 (total_pages + 1)) rows_data.

(** The body of the [try] block of [scrape_events]. *)
Definition grid_summary (filters : Dict.t string) : M DataFrame :=
  rows_data <- grid_rows filters ;;
  basic_df <- lift (pd_DataFrame rows_data) ;;
  ret (add_detail_urls basic_df).

(** The [except] handler. *)
Definition fallback_summary (filters : Dict.t string) : M DataFrame :=
  html <- _get_events_page filters ;;
  ret (parse_events_table html).

(** [except (requests.RequestException, ValueError)] *)
Definition grid_catches (e : exn) : bool :=
  isinstance_RequestException e || isinstance_ValueError e.

Definition fetch_summary (filters : Dict.t string) : M DataFrame :=
  try_except (grid_summary filters) grid_catches (fun _ => fallback_summary filters).

(** The body of the loop over detail links. *)
Definition fetch_detail (idx : nat) (url : pyval) : M (Dict.t pyval) :=
  try_except
    (response <- get (py_str url) [] ;;
     _ <- raise_for_status response ;;
     let detail := map (fun kv => (fst kv, PStr (snd kv)))
                       (parse_event_detail (text response)) in
     let detail := Dict.set "detalle_url" url detail in
     let detail := Dict.set "indice" (PStr (str_of_Z (Z.of_nat idx))) detail in
     ret detail)
    isinstance_RequestException
    (fun exc =>
       ret [("detalle_url", url); ("error", PStr (exn_str exc));
            ("indice", PStr (str_of_Z (Z.of_nat idx)))]).

(** [for idx, url in enumerate(links, start=1)] *)
Fixpoint enrich (links : list (nat * pyval)) (detail_rows : list (Dict.t pyval))
  : M (list (Dict.t pyval)) :=
  match links with
  | [] => ret detail_rows
  | (idx, url) :: rest =>
      detail <- fetch_detail idx url ;;
      enrich rest (detail_rows ++ [detail])
  end.

(** The detail links a summary offers, cut to [max_details]. *)
Definition select_links (max_details : option Z) (basic_df : DataFrame) : list pyval :=
  let links := filter py_truthy (df_col "detalle_url" basic_df) in
  match max_details with
  | Some m => py_slice_to m links
  | None => links
  end.

(** Lines 205-224: what [scrape_events] does once it holds the summary. *)
Definition detail_phase (include_details : bool) (max_details : option Z)
  (basic_df : DataFrame) : M (DataFrame * DataFrame) :=
  if negb include_details || df_empty basic_df
  then ret (basic_df, empty_frame)
  else
    detail_rows <- enrich (enumerate 1 (select_links max_details basic_df)) [] ;;
    ret (basic_df, frame_of_records detail_rows).

Definition scrape_events (filters : Dict.t string) (include_details : bool)
  (max_details : option Z) : M (DataFrame * DataFrame) :=
  basic_df <- fetch_summary filters ;;
  detail_phase include_details max_details basic_df.

(* ===================================================================== *)
(** ** Vocabulary of the statements *)
(* ===================================================================== *)

(** A step that may assign one key: the shape of the loop bodies that
    fill a dictionary. *)
Definition assign {V X : Type} (f : X -> option (string * V)) (d : Dict.t V) (x : X)
  : Dict.t V :=
  match f x with
  | Some (k, v) => Dict.set k v d
  | None => d
  end.

(** A detail link in the sense of the specification: a non-empty string. *)
Definition is_url (v : pyval) : bool :=
  match v with
  | PStr s => nonempty s
  | _ => false
  end.

(** Every cell of the "detalle_url" column is a string or None: no row
    lacks the cell (NaN), and none holds a number, a truth value, a list or
    an object. *)
Definition links_are_text (df : DataFrame) : bool :=
  forallb (fun v => match v with PStr _ | PNone => true | _ => false end)
          (df_col "detalle_url" df).


(** What a select contributes to the filters: its name and its options. *)
Definition select_pair (select : node) : option (string * Dict.t string) :=
  match select_name select with
  | Some name =>
      if nonempty name
      then Some (name, fold_left option_entry (find_all ["option"] select) [])
      else None
  | None => None
  end.

(** What an option contributes to its select: the key it is filed under
    and the value stored there. *)
Definition option_pair (opt : node) : option (string * string) :=
  let value := str_strip (or_empty (attr "value" opt)) in
  let label := get_text "" opt in
  if nonempty value || nonempty label
  then Some (if nonempty label then label else value, value)
  else None.



(** The request for a detail page, made in world [w], fails with the
    description [msg] and leaves the world [w']: in transport, or by an
    error status. *)
Inductive detail_fetch_fails (url : pyval) (w w' : World) (msg : string) : Prop :=
| detail_fails_transport :
    session_get (py_str url) [] w = (w', Failed msg) ->
    detail_fetch_fails url w w' msg
| detail_fails_status : forall r,
    session_get (py_str url) [] w = (w', Replied r) ->
    ((400 <=? status_code r)%nat && (status_code r <? 600)%nat) = true ->
    msg = status_error r ->
    detail_fetch_fails url w w' msg.

End Scraper.

(** app.py, line 73: [detail_limit = None if max_details == 0 else int(max_details)] *)
Definition detail_limit (max_details : Z) : option Z :=
  if (max_details =? 0)%Z then None else Some max_details.

(* ===================================================================== *)
(** ** The rest of scraper.py and its caller *)
(* ===================================================================== *)

(** A Python [str] is a sequence of characters (code points); it is held
    here as the string of its UTF-8 bytes, in which a character is a leading
    byte followed by its continuation bytes, the bytes [10xxxxxx]. *)
Definition continuation (c : ascii) : bool :=
  match c with
  | Ascii _ _ _ _ _ _ b6 b7 => b7 && negb b6
  end.

(** [len(s)]: the number of characters. *)
Fixpoint str_len (s : string) : nat :=
  match s with
  | EmptyString => O
  | String c r => if continuation c then str_len r else S (str_len r)
  end.

(** [s[:n]]: the first [n] characters, each with all its bytes. *)
Fixpoint str_take (n : nat) (s : string) : string :=
  match s with
  | EmptyString => EmptyString
  | String c r =>
      if continuation c then String c (str_take n r)
      else match n with
           | O => EmptyString
           | S n' => String c (str_take n' r)
           end
  end.

(** [s.split(sep)] for a separator of one character. *)
Fixpoint split_on (sep : ascii) (s : string) : list string :=
  match s with
  | EmptyString => [EmptyString]
  | String c r =>
      if Ascii.eqb c sep then EmptyString :: split_on sep r
      else match split_on sep r with
           | piece :: pieces => String c piece :: pieces
           | [] => [String c EmptyString]
           end
  end.

(** [s.split(sep, maxsplit=1)] when [sep in s]: what stands before the
    first separator and what stands after it; [None] when [sep] is not in
    [s]. *)
Fixpoint split_first (sep : ascii) (s : string) : option (string * string) :=
  match s with
  | EmptyString => None
  | String c r =>
      if Ascii.eqb c sep then Some (EmptyString, r)
      else match split_first sep r with
           | Some (before, rest) => Some (String c before, rest)
           | None => None
           end
  end.

(** The title [dataframe_to_excel_bytes] gives the sheet:
    [sheet_name[:31] or "datos"]. *)
Definition sheet_title (sheet_name : string) : string :=
  if nonempty (str_take 31 sheet_name) then str_take 31 sheet_name else "datos".

(** The Excel writer behind [dataframe_to_excel_bytes]:
    [df.to_excel(writer, index=False, sheet_name=title)] on an openpyxl
    writer over a fresh buffer, and the bytes of the buffer afterwards. *)
Class Excel : Type := {
  write_sheet : DataFrame -> string -> outcome string
}.

Definition dataframe_to_excel_bytes {excel : Excel} (df : DataFrame) (sheet_name : string)
  : outcome string :=
  write_sheet df (sheet_title sheet_name).

(** What an element of a filling loop appends when its key is new. *)
Definition assigned {V X : Type} (f : X -> option (string * V)) (x : X)
  : list (string * V) :=
  match f x with Some p => [p] | None => [] end.

Section Callers.
Context {lib : PyLib} {net : Net}.

(** One turn of the loop of [normalize_filter_values]. *)
Definition normalize_step (cleaned : Dict.t string) (item : string * pyval)
  : Dict.t string :=
  match snd item with
  | PNone => cleaned
  | PStr s =>
      let value := str_strip s in
      if nonempty value then Dict.set (fst item) value cleaned else cleaned
  | value => Dict.set (fst item) (py_str value) cleaned
  end.

Definition normalize_filter_values (raw_values : Dict.t pyval) : Dict.t string :=
  fold_left normalize_step raw_values [].

(** What an item of the raw values contributes to the cleaned ones. *)
Definition normalize_pair (item : string * pyval) : option (string * string) :=
  match snd item with
  | PNone => None
  | PStr s => if nonempty (str_strip s) then Some (fst item, str_strip s) else None
  | value => Some (fst item, py_str value)
  end.

(** app.py, lines 55-58: one turn of the loop over the pieces of the
    manual filter text. *)
Definition manual_step (selected : Dict.t pyval) (pair : string) : Dict.t pyval :=
  match split_first "="%char pair with
  | Some (key, value) => Dict.set (str_strip key) (PStr (str_strip value)) selected
  | None => selected
  end.

(** app.py, lines 54-58: the selection typed as [key=value,key=value]. *)
Definition manual_selection (manual : string) : Dict.t pyval :=
  if nonempty (str_strip manual)
  then fold_left manual_step (split_on ","%char manual) []
  else [].

(** What a piece of the manual text contributes to the selection. *)
Definition manual_pair (pair : string) : option (string * pyval) :=
  match split_first "="%char pair with
  | Some (key, value) => Some (str_strip key, PStr (str_strip value))
  | None => None
  end.

(** app.py, lines 72-81: what the submit button runs, for the selection
    [selected], the check box and the number typed as maximum. *)
Definition submit (selected : Dict.t pyval) (include_detail : bool) (max_details : Z)
  : M (DataFrame * DataFrame) :=
  scrape_events (normalize_filter_values selected) include_detail
                (detail_limit max_details).

(** app.py, lines 23-28: the filter options loaded when the page opens,
    the empty mapping when anything fails ([except Exception]).  The
    listing page is requested without parameters. *)
Definition load_filter_options : M (Dict.t (Dict.t string)) :=
  try_except
    (bind (_get_events_page []) (fun html => ret (extract_filter_options html)))
    (fun _ => true)
    (fun _ => ret []).

(** Whether a table row has a data cell. *)
Definition has_data_cell (tr : node) : bool :=
  match find_all ["td"] tr with [] => false | _ :: _ => true end.

(** Where [parse_events_table] looks for rows: [table.find("tbody") or table]. *)
Definition table_body (table : node) : node :=
  match find "tbody" table with Some b => b | None => table end.

(** The column names [parse_events_table] reads off a table: the text of
    the header cells of its thead, or of all its header cells. *)
Definition table_headers (table : node) : list string :=
  map (get_text " ")
      (match find "thead" table with
       | Some header_cells => find_all ["th"] header_cells
       | None => find_all ["th"] table
       end).

(** The link a table row is given: the first anchor with an href, made
    absolute, or the empty string. *)
Definition row_link (tr : node) : string :=
  match find_link tr with
  | Some a => urljoin BASE_URL (or_empty (attr "href" a))
  | None => ""
  end.

(** The pagination loop, run over [pages] from world [w], fetches every
    page, leaves the world [w'] and has taken the rows [more], page after
    page. *)
Inductive pages_served (filters : Dict.t string)
  : list Z -> World -> World -> list pyval -> Prop :=
| served_none : forall w, pages_served filters [] w w []
| served_more : forall p rest w w1 page_data rows w' more,
    _fetch_events_grid_page filters p 100 w = (w1, Ok page_data) ->
    page_rows page_data = Ok rows ->
    pages_served filters rest w1 w' more ->
    pages_served filters (p :: rest) w w' (rows ++ more).

End Callers.

(* ===================================================================== *)
(** ** A small library instance and a scripted server, to run the model *)
(* ===================================================================== *)

Module Fixture.

(** ASCII white space, as [str.strip] sees it. *)
Definition is_space (c : ascii) : bool :=
  let n := nat_of_ascii c in
  (n =? 32)%nat || ((9 <=? n)%nat && (n <=? 13)%nat) || ((28 <=? n)%nat && (n <=? 31)%nat).

Fixpoint lstrip (s : string) : string :=
  match s with
  | EmptyString => EmptyString
  | String c r => if is_space c then lstrip r else s
  end.

Fixpoint rstrip (s : string) : string :=
  match s with
  | EmptyString => EmptyString
  | String c r =>
      match rstrip r with
      | EmptyString => if is_space c then EmptyString else String c EmptyString
      | r' => String c r'
      end
  end.

Definition strip (s : string) : string := rstrip (lstrip s).

Definition lower_char (c : ascii) : ascii :=
  let n := nat_of_ascii c in
  if (65 <=? n)%nat && (n <=? 90)%nat then ascii_of_nat (n + 32) else c.

Fixpoint lower (s : string) : string :=
  match s with
  | EmptyString => EmptyString
  | String c r => String (lower_char c) (lower r)
  end.

Definition chars (s : string) : list string :=
  map (fun c => String c EmptyString) (list_ascii_of_string s).

Definition parse_int (s : string) : option Z :=
  match NilZero.int_of_string s with
  | Some i => Some (Z.of_int i)
  | None => None
  end.

(** [urljoin] on the two shapes the fixtures use: an absolute reference
    replaces the base, a path is put behind the host of the base. *)
Definition join_url (base ref : string) : string :=
  if String.prefix "http" ref then ref else base ++ ref.

(** Markup of a tree, without attributes. *)
Fixpoint markup (n : node) : string :=
  match n with
  | NText _ s => s
  | NTag nm _ cs =>
      String.concat ""
        ["<"; nm; ">";
         (fix go (l : list node) : string :=
            match l with
            | [] => ""
            | c :: r => String.append (markup c) (go r)
            end) cs;
         "</"; nm; ">"]
  end.

(** A parser that knows the documents of [pages] by their text and reads
    any other input as a document holding that text. *)
Definition parse (pages : Dict.t node) (html : string) : node :=
  match Dict.get html pages with
  | Some doc => doc
  | None => NTag "[document]" [] [NText true html]
  end.

(** [str(f)] for a float that holds an integer below 10^16: the digits of
    the integer and ".0"; other values are not written out. *)
Definition repr (v : pyval) : string :=
  match v with
  | PFloat (S754_finite s m e) =>
      let whole := if (0 <=? e)%Z then true else (Z.pos m mod 2 ^ (- e) =? 0)%Z in
      let mag := if (0 <=? e)%Z then (Z.pos m * 2 ^ e)%Z else (Z.pos m / 2 ^ (- e))%Z in
      if whole && (mag <? 10 ^ 16)%Z
      then String.append (str_of_Z (if s then (- mag)%Z else mag)) ".0"
      else "<value>"
  | _ => "<value>"
  end.

(** The dtype pandas 2 infers for a column of decoded JSON values: a
    column with a string, a list or an object, or with a truth value, stays
    a column of objects; a column of numbers is float64 when it has a float
    (an absent cell is the float NaN), or an integer next to a None; a
    column of integers only is int64. *)
Definition is_object (v : pyval) : bool :=
  match v with PStr _ | PList _ | PDict _ | PBool _ => true | _ => false end.

Definition is_float (v : pyval) : bool :=
  match v with PFloat _ => true | _ => false end.

Definition is_int (v : pyval) : bool :=
  match v with PInt _ => true | _ => false end.

Definition is_null (v : pyval) : bool :=
  match v with PNone => true | _ => false end.

Definition float64_column (col : list pyval) : bool :=
  negb (existsb is_object col)
  && (existsb is_float col || (existsb is_null col && existsb is_int col)).

(** The float64 nearest to an integer. *)
Definition float_of_Z (z : Z) : spec_float := binary_normalize 53 1024 z 0 false.

(** What a column holds for an object: in a float64 column an integer is
    its float and None is NaN; every other column holds the object. *)
Definition convert (col : list pyval) (v : pyval) : pyval :=
  if float64_column col
  then match v with
       | PNone => nan
       | PInt z => PFloat (float_of_Z z)
       | _ => v
       end
  else v.

Definition library (pages : Dict.t node) : PyLib := {|
  str_strip := strip;
  str_lower := lower;
  str_chars := chars;
  int_of_str := parse_int;
  repr_other := repr;
  urljoin := join_url;
  parse_html := parse pages;
  node_str := markup;
  frame_of_irregular := fun _ => Raise (ValueError "DataFrame constructor not properly called!");
  convert_object := convert
|}.

(** A server that plays a script: the world is the list of exchanges still
    to come, each with the method and URL it expects.  A request that is
    not the expected one, or comes after the script ended, fails in
    transport. *)
Definition exchange : Type := (string * string * reply)%type.

Definition play (method url : string) (w : list exchange) : list exchange * reply :=
  match w with
  | (m, u, r) :: rest =>
      if String.eqb m method && String.eqb u url then (rest, r)
      else (rest, Failed "unexpected request")
  | [] => ([], Failed "connection refused")
  end.

Definition net : Net := {|
  World := list exchange;
  session_get := fun url _ w => play "GET" url w;
  session_post := fun url _ w => play "POST" url w;
  status_error := fun r => String.append (str_of_Z (Z.of_nat (status_code r))) " Error"
|}.

Definition listing_url : string := "https://pulepapp.mincultura.gov.co/InformesPublicos/Eventos".
Definition grid_url : string := "https://pulepapp.mincultura.gov.co/InformesPublicos/ObtenerEventos".
Definition detail_url (evento_id : string) : string :=
  "https://pulepapp.mincultura.gov.co/InformesPublicos/EventoFichap/" ++ evento_id.

Definition ok_html (body : string) : reply := Replied (mkResponse 200 body None).
Definition ok_json (v : pyval) : reply := Replied (mkResponse 200 "" (Some v)).

(** A grid page: [{"total": total, "rows": rows}] *)
Definition grid_page (total : Z) (rows : list pyval) : pyval :=
  PDict [("total", PInt total); ("rows", PList rows)].

End Fixture.

(* ===================================================================== *)
(** ** Concrete documents and exchanges *)
(* ===================================================================== *)

Module Scenario.
Import Fixture.

Definition cell (s : string) : node := NTag "td" [] [NText true s].
Definition row (cells : list node) : node := NTag "tr" [] cells.
Definition document (body : list node) : node := NTag "[document]" [] body.

(** A detail page without pairs: one table row whose first cell is blank
    and a bold word that nothing follows.
    [<table><tr><td> </td><td>v</td></tr></table><b>x</b>] *)
Definition blank_doc : node :=
  document [NTag "table" [] [row [cell " "; cell "v"]]; NTag "b" [] [NText true "x"]].

(** A detail page where a table row and a label offer the same key.
    [<table><tr><td>Nombre</td><td>Feria A</td></tr></table>
     <label>Nombre:</label><span>Feria B</span>] *)
Definition name_span : node := NTag "span" [] [NText true "Feria B"].

Definition clash_doc : node :=
  document [NTag "table" [] [row [cell "Nombre"; cell "Feria A"]];
            NTag "label" [] [NText true "Nombre:"];
            name_span].

(** A detail page with a table nested in the first cell of another one.
    [<table>
       <tr><td><table><tr><td>A</td><td>inner</td></tr></table></td><td>x</td></tr>
       <tr><td>A</td><td>outer</td></tr>
     </table>] *)
Definition inner_row : node := row [cell "A"; cell "inner"].
Definition outer_row : node := row [cell "A"; cell "outer"].
Definition holder_row : node :=
  row [NTag "td" [] [NTag "table" [] [inner_row]]; cell "x"].

Definition nested_doc : node :=
  document [NTag "table" [] [holder_row; outer_row]].

(** A detail page with two flat rows for the same key and a blank one.
    [<table><tr><td>A</td><td>1</td></tr><tr><td></td><td>2</td></tr>
            <tr><td>A</td><td>3</td></tr></table>] *)
Definition flat_doc : node :=
  document [NTag "table" [] [row [cell "A"; cell "1"]; row [cell ""; cell "2"];
                             row [cell "A"; cell "3"]]].

(** A filter form.
    [<form><select name="anio">
       <option value="">Todos</option>
       <option value="2025"></option>
       <option value="2024"> 2024 </option></select></form>] *)
Definition todos_option : node := NTag "option" [("value", "")] [NText true "Todos"].
Definition bare_option : node := NTag "option" [("value", "2025")] [NText true ""].
Definition year_option : node := NTag "option" [("value", "2024")] [NText true " 2024 "].
Definition anio_select : node :=
  NTag "select" [("name", "anio")] [todos_option; bare_option; year_option].

Definition form_doc : node := document [NTag "form" [] [anio_select]].

(** A listing page with two tables, the second one about events, and one
    with a single table that is not.
    [<table><tr><th>Menu</th></tr></table>
     <table><tr><th>Nombre del Evento</th></tr>
            <tr><td>Feria A</td><td><a href="/InformesPublicos/EventoFichap/5">ver</a></td></tr>
     </table>] *)
Definition menu_table : node :=
  NTag "table" [] [row [NTag "th" [] [NText true "Menu"]]].

Definition events_table : node :=
  NTag "table" []
    [row [NTag "th" [] [NText true "Nombre del Evento"]];
     row [cell "Feria A";
          NTag "td" [] [NTag "a" [("href", "/InformesPublicos/EventoFichap/5")]
                          [NText true "ver"]]]].

Definition listing_doc : node := document [menu_table; events_table].
Definition menu_doc : node := document [menu_table].

(** The documents the fixture parser knows, by the text that stands for
    their markup. *)
Definition pages : Dict.t node :=
  [("blank", blank_doc); ("clash", clash_doc); ("nested", nested_doc);
   ("flat", flat_doc); ("form", form_doc); ("listing", listing_doc);
   ("menu", menu_doc);
   ("<span>Feria B</span>", document [name_span])].

Definition lib : PyLib := library pages.

(** Two grid pages of one event each. *)
Definition feria_a : Dict.t pyval := [("EventoId", PStr "5"); ("Nombre", PStr "Feria A")].
Definition feria_b : Dict.t pyval := [("EventoId", PStr "6"); ("Nombre", PStr "Feria B")].
Definition page_1 : pyval := grid_page 2 [PDict feria_a].
Definition page_2 : pyval := grid_page 2 [PDict feria_b].

(** Both grid pages arrive; the first detail page is served, the request
    for the second one times out. *)
Definition two_pages : list exchange :=
  [("GET", listing_url, ok_html ""); ("POST", grid_url, ok_json page_1);
   ("GET", listing_url, ok_html ""); ("POST", grid_url, ok_json page_2);
   ("GET", detail_url "5", ok_html "clash");
   ("GET", detail_url "6", Failed "timeout")].

(** The world [two_pages] leaves once the summary is fetched. *)
Definition two_details : list exchange :=
  [("GET", detail_url "5", ok_html "clash");
   ("GET", detail_url "6", Failed "timeout")].

(** The summary of [two_pages]. *)
Definition two_rows : DataFrame :=
  mkDataFrame ["EventoId"; "Nombre"; "detalle_url"]
    [[PStr "5"; PStr "Feria A"; PStr (detail_url "5")];
     [PStr "6"; PStr "Feria B"; PStr (detail_url "6")]].




Definition without_id : Dict.t pyval := [("detalle_url", PStr "http://y")].


(** One grid page whose rows have no "EventoId" at all. *)
Definition linked_page : list exchange :=
  [("GET", listing_url, ok_html "");
   ("POST", grid_url, ok_json (grid_page 1 [PDict without_id]))].

(** One grid page whose identifiers are integers and whose second row has
    none: [{"total": 1, "rows": [{"EventoId": 5, "Nombre": "Feria A"},
    {"Nombre": "Feria B"}]}] *)
Definition numbered : Dict.t pyval := [("EventoId", PInt 5); ("Nombre", PStr "Feria A")].
Definition unnumbered : Dict.t pyval := [("Nombre", PStr "Feria B")].

Definition gap_page : list exchange :=
  [("GET", listing_url, ok_html "");
   ("POST", grid_url, ok_json (grid_page 1 [PDict numbered; PDict unnumbered]))].

(** One grid page without identifiers whose first row has no detail link:
    [{"total": 1, "rows": [{"Nombre": "A"},
    {"Nombre": "B", "detalle_url": "http://y"}]}].  The request for "nan"
    is refused by [requests] for want of a scheme; the page of the second
    row is served. *)
Definition unlinked : Dict.t pyval := [("Nombre", PStr "A")].
Definition linked : Dict.t pyval := [("Nombre", PStr "B"); ("detalle_url", PStr "http://y")].

Definition no_scheme : string :=
  "Invalid URL 'nan': No scheme supplied. Perhaps you meant https://nan?".

Definition absent_link : list exchange :=
  [("GET", listing_url, ok_html "");
   ("POST", grid_url, ok_json (grid_page 1 [PDict unlinked; PDict linked]));
   ("GET", "nan", Failed no_scheme);
   ("GET", "http://y", ok_html "flat")].

(** The summary of [absent_link]. *)
Definition absent_link_rows : DataFrame :=
  mkDataFrame ["Nombre"; "detalle_url"]
    [[PStr "A"; nan]; [PStr "B"; PStr "http://y"]].

(** [scrape_events] against the scripted server. *)
Definition run_scrape (filters : Dict.t string) (include_details : bool)
  (max_details : option Z) (w : list exchange)
  : list exchange * outcome (DataFrame * DataFrame) :=
  scrape_events (lib := lib) (net := net) filters include_details max_details w.

End Scenario.

(* ===================================================================== *)
(** ** More documents and exchanges *)
(* ===================================================================== *)

Module Cases.
Import Fixture Scenario.

(** Raw filter values as a form can hand them over. *)
Definition raw_filters : Dict.t pyval :=
  [("anio", PStr " 2025 "); ("departamento", PNone); ("ciudad", PStr "  ");
   ("pagina", PInt 3)].

(** A manual filter text with a blank value and a piece without "=". *)
Definition manual_text : string := "anio= 2025 ,departamento= ,ciudad".

(** A detail page on which two label-like elements offer the key "Tipo".
    [<label>Tipo:</label> Concierto <b>Tipo</b>Feria] *)
Definition tipo_label : node := NTag "label" [] [NText true "Tipo:"].
Definition tipo_bold : node := NTag "b" [] [NText true "Tipo"].

Definition labels_doc : node :=
  document [tipo_label; NText true " Concierto "; tipo_bold; NText true "Feria"].

Definition pages : Dict.t node := [("labels", labels_doc)].

Definition lib : PyLib := library pages.

(** The detail table of [two_pages]. *)
Definition two_records : DataFrame :=
  mkDataFrame ["Nombre"; "detalle_url"; "indice"; "error"]
    [[PStr "Feria A"; PStr (detail_url "5"); PStr "1"; nan];
     [nan; PStr (detail_url "6"); PStr "2"; PStr "timeout"]].

(** The request for the second detail page of [two_pages]. *)
Definition second_detail : list exchange :=
  [("GET", detail_url "6", Failed "timeout")].

(** A grid that answers [{}]. *)
Definition empty_grid : list exchange :=
  [("GET", listing_url, ok_html ""); ("POST", grid_url, ok_json (PDict []))].

(** A grid whose "total" is a list. *)
Definition list_total : list exchange :=
  [("GET", listing_url, ok_html "");
   ("POST", grid_url, ok_json (PDict [("total", PList [PInt 1]); ("rows", PList [])]));
   ("GET", listing_url, ok_html "listing")].

(** A grid whose "total" is a word; the listing page is served after it. *)
Definition word_total : list exchange :=
  [("GET", listing_url, ok_html "");
   ("POST", grid_url, ok_json (PDict [("total", PStr "abc"); ("rows", PList [])]));
   ("GET", listing_url, ok_html "listing")].

(** A sheet name of 32 characters of two bytes each (the letter n with a
    tilde, C3 B1 in UTF-8). *)
Definition enie : string :=
  String (ascii_of_nat 195) (String (ascii_of_nat 177) EmptyString).

Definition long_name : string := String.concat "" (repeat enie 32).

(** The data row of [events_table]. *)
Definition link_cell : node :=
  NTag "td" [] [NTag "a" [("href", "/InformesPublicos/EventoFichap/5")]
                  [NText true "ver"]].
Definition feria_row : node := row [cell "Feria A"; link_cell].

End Cases.

(* ===================================================================== *)
(** * Properties *)
(* ===================================================================== *)

(** ** Dictionaries *)

Lemma dict_get_set_eq {V : Type} (k : string) (v : V) (d : Dict.t V) :
  Dict.get k (Dict.set k v d) = Some v.
Proof.
  induction d as [|[k' v'] r IH]; simpl.
  - now rewrite String.eqb_refl.
  - destruct (String.eqb k' k) eqn:E; simpl; rewrite E; auto.
Qed.

Lemma dict_get_set_neq {V : Type} (k k' : string) (v : V) (d : Dict.t V) :
  k <> k' -> Dict.get k (Dict.set k' v d) = Dict.get k d.
Proof.
  intros Hne. induction d as [|[k0 v0] r IH]; simpl.
  - destruct (String.eqb k' k) eqn:E; auto.
    apply String.eqb_eq in E. congruence.
  - destruct (String.eqb k0 k') eqn:E; simpl.
    + apply String.eqb_eq in E. subst k0.
      destruct (String.eqb k' k) eqn:E'; auto.
      apply String.eqb_eq in E'. congruence.
    + destruct (String.eqb k0 k); auto.
Qed.

Lemma dict_set_not_nil {V : Type} (k : string) (v : V) (d : Dict.t V) :
  Dict.set k v d <> [].
Proof. destruct d as [|[k' v'] r]; simpl; [|destruct (String.eqb k' k)]; discriminate. Qed.

Lemma dict_get_In_keys {V : Type} (k : string) (v : V) (d : Dict.t V) :
  Dict.get k d = Some v -> In k (Dict.keys d).
Proof.
  induction d as [|[k' v'] r IH]; simpl; [discriminate|].
  destruct (String.eqb k' k) eqn:E; intros H.
  - left. now apply String.eqb_eq.
  - right. auto.
Qed.


(** ** Loops that fill a dictionary *)

Section Assign.
Context {V X : Type} (f : X -> option (string * V)).

Lemma fold_assign_keeps (k : string) (v : V) (xs : list X) (d : Dict.t V) :
  Dict.get k d = Some v ->
  (forall y v', In y xs -> f y <> Some (k, v')) ->
  Dict.get k (fold_left (assign f) xs d) = Some v.
Proof.
  revert d. induction xs as [|x xs IH]; intros d Hd Hno; simpl; auto.
  apply IH; [|intros; apply Hno; now right].
  unfold assign. destruct (f x) as [[k' v']|] eqn:E; auto.
  rewrite dict_get_set_neq; auto.
  intros ->. apply (Hno x v'); [now left|assumption].
Qed.

(** The last element that assigns a key decides its value. *)
Lemma fold_assign_last (k : string) (v : V) (pre : list X) (x : X) (post : list X)
  (d : Dict.t V) :
  f x = Some (k, v) ->
  (forall y v', In y post -> f y <> Some (k, v')) ->
  Dict.get k (fold_left (assign f) (pre ++ x :: post) d) = Some v.
Proof.
  intros Hx Hno. rewrite fold_left_app. simpl.
  apply fold_assign_keeps; auto.
  unfold assign at 1. rewrite Hx. apply dict_get_set_eq.
Qed.

(** Every entry was there before or was assigned by an element. *)
Lemma fold_assign_source (k : string) (v : V) (xs : list X) (d : Dict.t V) :
  Dict.get k (fold_left (assign f) xs d) = Some v ->
  Dict.get k d = Some v \/ exists x, In x xs /\ f x = Some (k, v).
Proof.
  revert d. induction xs as [|x xs IH]; intros d H; simpl in *; auto.
  destruct (IH _ H) as [H1|(y & Hy & Hf)].
  - unfold assign in H1. destruct (f x) as [[k' v']|] eqn:E; auto.
    destruct (string_dec k k') as [->|Hne].
    + rewrite dict_get_set_eq in H1. inversion H1; subst.
      right. exists x. split; [now left|assumption].
    + rewrite dict_get_set_neq in H1 by assumption. now left.
  - right. exists y. split; [now right|assumption].
Qed.

(** Elements that assign nothing leave the dictionary as it was. *)
Lemma fold_assign_idle (xs : list X) (d : Dict.t V) :
  (forall x, In x xs -> f x = None) ->
  fold_left (assign f) xs d = d.
Proof.
  revert d. induction xs as [|x xs IH]; intros d H; simpl; auto.
  unfold assign at 2. rewrite (H x) by now left.
  apply IH. intros; apply H; now right.
Qed.

Lemma fold_assign_not_nil (xs : list X) (d : Dict.t V) :
  d <> [] -> fold_left (assign f) xs d <> [].
Proof.
  revert d. induction xs as [|x xs IH]; intros d H; simpl; auto.
  apply IH. unfold assign. destruct (f x) as [[k v]|]; auto.
  apply dict_set_not_nil.
Qed.

End Assign.

(** ** Walks of the document tree *)

Lemma node_induction (P : node -> Prop) :
  (forall shown s, P (NText shown s)) ->
  (forall nm attrs cs, Forall P cs -> P (NTag nm attrs cs)) ->
  forall n, P n.
Proof.
  intros Ht Hn. fix IH 1. intros [shown s|nm attrs cs]; [apply Ht|apply Hn].
  induction cs as [|c cs IHcs]; constructor; [apply IH|exact IHcs].
Qed.

Lemma flat_map_pointwise {A B : Type} (f g : A -> list B) (l : list A) :
  Forall (fun x => f x = g x) l -> flat_map f l = flat_map g l.
Proof. induction 1; simpl; congruence. Qed.

Lemma descendants_tag (nm : string) (attrs : Dict.t string) (cs : list node) :
  descendants (NTag nm attrs cs) = flat_map (fun c => c :: descendants c) cs.
Proof. simpl. induction cs as [|c cs IH]; simpl; [|rewrite IH]; reflexivity. Qed.

Lemma find_all_tag (names : list string) (nm : string) (attrs : Dict.t string)
  (cs : list node) :
  find_all names (NTag nm attrs cs)
  = flat_map (fun c => (if is_tag names c then [c] else []) ++ find_all names c) cs.
Proof.
  unfold find_all. rewrite descendants_tag.
  induction cs as [|c cs IH]; simpl; auto.
  rewrite filter_app, IH. destruct (is_tag names c); reflexivity.
Qed.

Lemma table_rows_tag (nm : string) (attrs : Dict.t string) (cs : list node) :
  table_rows (NTag nm attrs cs)
  = flat_map (fun c => (if is_tag ["table"] c then find_all ["tr"] c else [])
                       ++ table_rows c) cs.
Proof.
  unfold table_rows. rewrite find_all_tag.
  induction cs as [|c cs IH]; simpl; auto.
  rewrite flat_map_app, IH. destruct (is_tag ["table"] c); simpl; auto.
Qed.

Lemma rows_in_tables_tag (inside : bool) (nm : string) (attrs : Dict.t string)
  (cs : list node) :
  rows_in_tables inside (NTag nm attrs cs)
  = flat_map (fun c =>
                (if (inside || String.eqb nm "table") && is_tag ["tr"] c then [c] else [])
                ++ rows_in_tables (inside || String.eqb nm "table") c) cs.
Proof.
  simpl. induction cs as [|c cs IH]; simpl; auto.
  rewrite IH. now rewrite app_assoc.
Qed.

Lemma flat_map_nil {A B : Type} (f : A -> list B) (l : list A) :
  flat_map f l = [] -> Forall (fun x => f x = []) l.
Proof.
  induction l as [|x l IH]; simpl; intros H; constructor.
  - now destruct (app_eq_nil _ _ H).
  - apply IH. now destruct (app_eq_nil _ _ H).
Qed.

Lemma find_all_child (names : list string) (nm : string) (attrs : Dict.t string)
  (cs : list node) (c t : node) :
  In c cs -> In t (find_all names c) -> In t (find_all names (NTag nm attrs cs)).
Proof.
  intros Hc Ht. rewrite find_all_tag. apply in_flat_map. exists c. split; auto.
  apply in_or_app. now right.
Qed.

Lemma find_all_child_self (names : list string) (nm : string) (attrs : Dict.t string)
  (cs : list node) (c : node) :
  In c cs -> is_tag names c = true -> In c (find_all names (NTag nm attrs cs)).
Proof.
  intros Hc Ht. rewrite find_all_tag. apply in_flat_map. exists c. split; auto.
  rewrite Ht. now left.
Qed.

(** Below a table that holds no other table, the rows are those one search
    finds. *)
Lemma rows_in_tables_inside (n : node) :
  find_all ["table"] n = [] -> rows_in_tables true n = find_all ["tr"] n.
Proof.
  induction n as [shown s|nm attrs cs IH] using node_induction; intros H; auto.
  rewrite rows_in_tables_tag, find_all_tag. rewrite find_all_tag in H.
  apply flat_map_nil in H. apply flat_map_pointwise.
  rewrite Forall_forall in *. intros c Hc. simpl.
  rewrite (IH c Hc); auto.
  now destruct (app_eq_nil _ _ (H c Hc)).
Qed.

Lemma table_rows_without_tables (n : node) :
  find_all ["table"] n = [] -> table_rows n = [].
Proof. intros H. unfold table_rows. now rewrite H. Qed.

Lemma rows_in_tables_of_table (inside : bool) (nm : string) (attrs : Dict.t string)
  (cs : list node) :
  is_tag ["table"] (NTag nm attrs cs) = true ->
  rows_in_tables inside (NTag nm attrs cs) = rows_in_tables true (NTag nm attrs cs).
Proof.
  intros E. simpl in E. rewrite orb_false_r in E.
  rewrite !rows_in_tables_tag, E. now rewrite orb_true_r.
Qed.

(** When no table lies in another, the loops visit the table rows of the
    document in document order. *)
Lemma table_rows_document_order (n : node) :
  is_tag ["table"] n = false ->
  tables_not_nested n ->
  table_rows n = document_rows n.
Proof.
  unfold document_rows.
  induction n as [shown s|nm attrs cs IH] using node_induction; intros Hn Hflat; auto.
  rewrite rows_in_tables_tag, table_rows_tag.
  simpl in Hn. rewrite orb_false_r in Hn. rewrite Hn. simpl.
  apply flat_map_pointwise. rewrite Forall_forall in *. intros c Hc.
  destruct (is_tag ["table"] c) eqn:Ec.
  - pose proof (Hflat c (find_all_child_self _ _ _ _ _ Hc Ec)) as Hin.
    rewrite (table_rows_without_tables _ Hin), app_nil_r.
    destruct c as [shown s|cnm cattrs ccs]; [discriminate|].
    rewrite (rows_in_tables_of_table false _ _ _ Ec).
    symmetry. now apply rows_in_tables_inside.
  - simpl. apply IH; auto.
    intros t Ht. apply Hflat. eapply find_all_child; eauto.
Qed.

(** ** The detail page extractor *)

Section DetailPage.
Context {lib : PyLib}.

Lemma label_step_keeps (k v : string) (data : Dict.t string) (ls : node * option node) :
  Dict.get k data = Some v -> Dict.get k (label_step data ls) = Some v.
Proof.
  intros H. unfold label_step.
  destruct (label_pair ls) as [[key value]|]; auto.
  destruct (Dict.mem key data) eqn:M; auto.
  rewrite dict_get_set_neq; auto.
  intros ->. unfold Dict.mem in M. now rewrite H in M.
Qed.

Lemma label_strategy_keeps (k v : string) (soup : node) (data : Dict.t string) :
  Dict.get k data = Some v -> Dict.get k (label_strategy soup data) = Some v.
Proof.
  unfold label_strategy. generalize (labels soup) as ls. intros ls. revert data.
  induction ls as [|l ls IH]; intros data H; simpl; auto.
  apply IH. now apply label_step_keeps.
Qed.

Lemma label_strategy_idle (soup : node) (data : Dict.t string) :
  (forall ls, In ls (labels soup) -> label_pair ls = None) ->
  label_strategy soup data = data.
Proof.
  unfold label_strategy. generalize (labels soup) as ls. intros ls. revert data.
  induction ls as [|l ls IH]; intros data H; simpl; auto.
  unfold label_step at 2. rewrite (H l) by now left.
  apply IH. intros; apply H; now right.
Qed.

Lemma row_pair_key_nonempty (tr : node) (k v : string) :
  row_pair tr = Some (k, v) -> nonempty k = true.
Proof.
  unfold row_pair. destruct (find_all ["th"; "td"] tr) as [|c0 [|c1 r]]; try discriminate.
  destruct (nonempty (get_text " " c0)) eqn:E; [|discriminate].
  intros H. inversion H; subst. exact E.
Qed.

Lemma parse_event_detail_data (html : string) :
  label_strategy (parse_html html) (table_strategy (parse_html html) []) <> [] ->
  parse_event_detail html
  = label_strategy (parse_html html) (table_strategy (parse_html html) []).
Proof.
  unfold parse_event_detail.
  destruct (label_strategy (parse_html html) (table_strategy (parse_html html) []));
    [congruence|reflexivity].
Qed.

(** C4.  [parse_event_detail] never returns an empty mapping; when no table
    row and no label-like element yields a pair, the result is the single
    field "contenido" holding the plain text of the whole page. *)
Theorem parse_event_detail_nonempty (html : string) :
  parse_event_detail html <> []
  /\ ((forall tr, In tr (table_rows (parse_html html)) -> row_pair tr = None) ->
      (forall ls, In ls (labels (parse_html html)) -> label_pair ls = None) ->
      parse_event_detail html = [("contenido", get_text " " (parse_html html))]).
Proof.
  split.
  - unfold parse_event_detail.
    destruct (label_strategy (parse_html html) (table_strategy (parse_html html) []));
      simpl; discriminate.
  - intros Hrows Hlabels. unfold parse_event_detail.
    rewrite (label_strategy_idle _ _ Hlabels).
    unfold table_strategy.
    change table_step with (assign row_pair).
    rewrite (fold_assign_idle row_pair _ _ Hrows). reflexivity.
Qed.

(** C6.  When a table row and a label-like element offer a pair for the
    same key, the result holds the value of the table strategy. *)
Theorem table_strategy_takes_precedence (html : string) (k v v' : string)
  (ls : node * option node) :
  Dict.get k (table_strategy (parse_html html) []) = Some v ->
  In ls (labels (parse_html html)) ->
  label_pair ls = Some (k, v') ->
  Dict.get k (parse_event_detail html) = Some v.
Proof.
  intros Htable _ _.
  pose proof (label_strategy_keeps k v (parse_html html) _ Htable) as H.
  rewrite parse_event_detail_data; [exact H|].
  intros E. rewrite E in H. discriminate.
Qed.

(** C10, as the code has it.  The table strategy visits the tables in
    document order and, for each, all the rows below it in document order
    (a row of a nested table is visited again with the inner table).  Of
    the visited rows that yield a key, the one visited last gives the key
    its value; every entry of the result comes from a visited row with that
    non-empty key; a row whose first cell has empty text yields no pair.
    When no table lies in another, the visited rows are the table rows of
    the document in document order, so the later row wins. *)
Theorem table_strategy_last_visit_wins (soup : node) :
  (forall pre tr post k v,
      table_rows soup = pre ++ tr :: post ->
      row_pair tr = Some (k, v) ->
      (forall tr' v', In tr' post -> row_pair tr' <> Some (k, v')) ->
      Dict.get k (table_strategy soup []) = Some v)
  /\ (forall k v,
         Dict.get k (table_strategy soup []) = Some v ->
         nonempty k = true
         /\ exists tr, In tr (table_rows soup) /\ row_pair tr = Some (k, v))
  /\ (forall tr c0 rest,
         find_all ["th"; "td"] tr = c0 :: rest ->
         get_text " " c0 = "" ->
         row_pair tr = None)
  /\ (is_tag ["table"] soup = false ->
      tables_not_nested soup ->
      table_rows soup = document_rows soup).
Proof.
  unfold table_strategy. change table_step with (assign row_pair).
  split; [|split; [|split]].
  - intros pre tr post k v E Hp Hno. rewrite E.
    now apply fold_assign_last.
  - intros k v H.
    destruct (fold_assign_source row_pair k v _ _ H) as [H0|(tr & Hin & Hp)];
      [discriminate|].
    split; [eapply row_pair_key_nonempty; eauto|eauto].
  - intros tr c0 rest E Hk. unfold row_pair. rewrite E, Hk.
    destruct rest; reflexivity.
  - apply table_rows_document_order.
Qed.

End DetailPage.

(** ** The table extractor *)

Lemma fold_left_pointwise {A B : Type} (f g : A -> B -> A) (l : list B) (a : A) :
  (forall a x, f a x = g a x) -> fold_left f l a = fold_left g l a.
Proof.
  intros H. revert a. induction l as [|x l IH]; intros a; simpl; auto.
  rewrite H. apply IH.
Qed.

Lemma find_first {A : Type} (p : A -> bool) (pre : list A) (x : A) (post : list A) :
  p x = true -> (forall y, In y pre -> p y = false) ->
  List.find p (pre ++ x :: post) = Some x.
Proof.
  intros Hx. induction pre as [|y pre IH]; intros Hpre; simpl.
  - now rewrite Hx.
  - rewrite (Hpre y) by now left. apply IH. intros; apply Hpre; now right.
Qed.

Lemma find_nowhere {A : Type} (p : A -> bool) (l : list A) :
  (forall y, In y l -> p y = false) -> List.find p l = None.
Proof.
  induction l as [|y l IH]; intros H; simpl; auto.
  rewrite (H y) by now left. apply IH. intros; apply H; now right.
Qed.

Lemma prefix_append (n h : string) :
  String.prefix n h = true <-> exists b, h = String.append n b.
Proof.
  revert h. induction n as [|c n IH]; intros h; simpl.
  - split; [intros _; now exists h|intros _; destruct h; reflexivity].
  - destruct h as [|c' h]; simpl.
    + split; [discriminate|intros [b Hb]; discriminate].
    + destruct (ascii_dec c c') as [->|Hne].
      * rewrite IH. split; intros [b Hb]; exists b; congruence.
      * split; [discriminate|intros [b Hb]; congruence].
Qed.

Lemma contains_nil (n : string) :
  contains n EmptyString = String.prefix n EmptyString.
Proof. unfold contains. apply orb_false_r. Qed.

Lemma contains_cons (n : string) (c : ascii) (h : string) :
  contains n (String c h) = String.prefix n (String c h) || contains n h.
Proof. reflexivity. Qed.

(** [contains needle hay] holds exactly when [needle] is a substring. *)
Lemma contains_substring (n h : string) :
  contains n h = true <-> exists a b, h = String.append a (String.append n b).
Proof.
  induction h as [|c h IH].
  - rewrite contains_nil, prefix_append. split.
    + intros [b Hb]. now exists EmptyString, b.
    + intros (a & b & Hab). destruct a; simpl in Hab; [now exists b|discriminate].
  - rewrite contains_cons, orb_true_iff, IH, prefix_append. split.
    + intros [[b Hb]|(a & b & Hab)].
      * now exists EmptyString, b.
      * exists (String c a), b. simpl. congruence.
    + intros (a & b & Hab). destruct a as [|c' a]; simpl in Hab.
      * left. now exists b.
      * right. exists a, b. congruence.
Qed.

Section TableExtractor.
Context {lib : PyLib}.

Lemma option_entry_assign (options : Dict.t string) (opt : node) :
  option_entry options opt = assign option_pair options opt.
Proof.
  unfold option_entry, assign, option_pair.
  destruct (nonempty (str_strip (or_empty (attr "value" opt))) || nonempty (get_text "" opt));
    reflexivity.
Qed.

Lemma select_entry_assign (filters : Dict.t (Dict.t string)) (select : node) :
  select_entry filters select = assign select_pair filters select.
Proof.
  unfold select_entry, assign, select_pair.
  destruct (select_name select) as [name|]; [|reflexivity].
  destruct (nonempty name); reflexivity.
Qed.

(** C7, as the code has it.  Without a form the result is the empty
    mapping.  With one, each select that has a non-empty name (or, failing
    that, id) is filed under it with its options, the last select of a name
    winning; an option is filed under its label, or under its value when
    the label is empty, and what is stored is always its value, empty or
    not; an option with neither is left out. *)
Theorem extract_filter_options_entries (html : string) :
  (find "form" (parse_html html) = None -> extract_filter_options html = [])
  /\ (forall form pre select post name options,
         find "form" (parse_html html) = Some form ->
         find_all ["select"] form = pre ++ select :: post ->
         select_pair select = Some (name, options) ->
         (forall s' o', In s' post -> select_pair s' <> Some (name, o')) ->
         Dict.get name (extract_filter_options html) = Some options)
  /\ (forall select name options,
         select_pair select = Some (name, options) ->
         nonempty name = true
         /\ (attr "name" select = Some name \/ attr "id" select = Some name)
         /\ forall pre opt post key value,
             find_all ["option"] select = pre ++ opt :: post ->
             option_pair opt = Some (key, value) ->
             (forall o' v', In o' post -> option_pair o' <> Some (key, v')) ->
             Dict.get key options = Some value)
  /\ (forall opt,
         let value := str_strip (or_empty (attr "value" opt)) in
         let label := get_text "" opt in
         option_pair opt
         = if nonempty label then Some (label, value)
           else if nonempty value then Some (value, value)
           else None).
Proof.
  repeat split.
  - intros H. unfold extract_filter_options. now rewrite H.
  - intros form pre select post name options Hform Hsel Hpair Hlast.
    unfold extract_filter_options. rewrite Hform, Hsel.
    rewrite (fold_left_pointwise _ _ _ _ select_entry_assign).
    now apply fold_assign_last.
  - unfold select_pair in H. destruct (select_name select) as [n|]; [|discriminate].
    destruct (nonempty n) eqn:E; [|discriminate]. inversion H; subst. exact E.
  - unfold select_pair, select_name in H.
    destruct (attr "name" select) as [n|] eqn:En.
    + destruct (nonempty n) eqn:E.
      * rewrite E in H. inversion H; subst. now left.
      * destruct (attr "id" select) as [i|]; [|discriminate].
        destruct (nonempty i); [|discriminate]. inversion H; subst. now right.
    + destruct (attr "id" select) as [i|]; [|discriminate].
      destruct (nonempty i); [|discriminate]. inversion H; subst. now right.
  - intros pre opt post key value Hopts Hpair Hlast.
    unfold select_pair in H. destruct (select_name select) as [n|]; [|discriminate].
    destruct (nonempty n); [|discriminate]. inversion H; subst. rewrite Hopts.
    rewrite (fold_left_pointwise _ _ _ _ option_entry_assign).
    now apply fold_assign_last.
  - intros opt value label. unfold option_pair. fold value label.
    destruct (nonempty label), (nonempty value); reflexivity.
Qed.

Lemma mentions_evento_iff (table : node) :
  mentions_evento table = true
  <-> exists th, In th (find_all ["th"] table)
                 /\ contains "evento" (str_lower (get_text " " th)) = true.
Proof.
  unfold mentions_evento. rewrite existsb_exists. split.
  - intros (h & Hin & Hc). apply in_map_iff in Hin. destruct Hin as (th & <- & Hth).
    now exists th.
  - intros (th & Hth & Hc). exists (str_lower (get_text " " th)). split; auto.
    apply in_map_iff. now exists th.
Qed.

Lemma find_results_table_eq (soup : node) :
  _find_results_table soup
  = match find_all ["table"] soup with
    | [] => None
    | first :: _ =>
        match List.find mentions_evento (find_all ["table"] soup) with
        | Some table => Some table
        | None => Some first
        end
    end.
Proof. unfold _find_results_table. destruct (find_all ["table"] soup); reflexivity. Qed.

(** C8.  [parse_events_table] reads the first table, in document order,
    one of whose header cells has "evento" in its lower-cased text; when no
    table has such a header cell it reads the first table of the document;
    when the document has no table the result is the empty frame. *)
Theorem parse_events_table_choice (html : string) :
  (find_all ["table"] (parse_html html) = [] ->
   _find_results_table (parse_html html) = None
   /\ parse_events_table html = empty_frame)
  /\ (forall pre table post,
         find_all ["table"] (parse_html html) = pre ++ table :: post ->
         (exists th, In th (find_all ["th"] table)
                     /\ contains "evento" (str_lower (get_text " " th)) = true) ->
         (forall t, In t pre -> mentions_evento t = false) ->
         _find_results_table (parse_html html) = Some table
         /\ parse_events_table html = frame_of_records (table_records table))
  /\ (forall first rest,
         find_all ["table"] (parse_html html) = first :: rest ->
         (forall t, In t (first :: rest) -> mentions_evento t = false) ->
         _find_results_table (parse_html html) = Some first
         /\ parse_events_table html = frame_of_records (table_records first)).
Proof.
  split; [|split].
  - intros H. unfold parse_events_table, _find_results_table. now rewrite H.
  - intros pre table post Htables Hth Hpre.
    apply mentions_evento_iff in Hth.
    assert (_find_results_table (parse_html html) = Some table) as E.
    { rewrite find_results_table_eq, Htables.
      rewrite (find_first _ _ _ _ Hth Hpre). now destruct pre. }
    split; [exact E|]. unfold parse_events_table. now rewrite E.
  - intros first rest Htables Hnone.
    assert (_find_results_table (parse_html html) = Some first) as E.
    { rewrite find_results_table_eq, Htables.
      now rewrite (find_nowhere _ _ Hnone). }
    split; [exact E|]. unfold parse_events_table. now rewrite E.
Qed.

End TableExtractor.

(** ** DataFrames *)

Lemma col_index_nth (c : string) (cols : list string) (j : nat) :
  col_index c cols = Some j -> nth_error cols j = Some c.
Proof.
  revert j. induction cols as [|c' r IH]; intros j; simpl; [discriminate|].
  destruct (String.eqb c' c) eqn:E.
  - intros H. inversion H; subst. apply String.eqb_eq in E. now subst.
  - destruct (col_index c r) as [j'|]; [|discriminate].
    intros H. inversion H; subst. simpl. now apply IH.
Qed.

Lemma col_index_In (c : string) (cols : list string) :
  In c cols -> exists j, col_index c cols = Some j.
Proof.
  induction cols as [|c' r IH]; simpl; [tauto|].
  intros H. destruct (String.eqb c' c) eqn:E; [now exists 0%nat|].
  destruct H as [->|H]; [now rewrite String.eqb_refl in E|].
  destruct (IH H) as [j ->]. now exists (S j).
Qed.


Lemma col_index_app_new (c : string) (cols : list string) :
  col_index c cols = None -> col_index c (cols ++ [c]) = Some (List.length cols).
Proof.
  induction cols as [|c' r IH]; simpl.
  - now rewrite String.eqb_refl.
  - destruct (String.eqb c' c); [discriminate|].
    destruct (col_index c r); [discriminate|].
    intros _. now rewrite IH.
Qed.

Lemma add_key_In (c k : string) (cols : list string) :
  In c (add_key cols k) <-> In c cols \/ c = k.
Proof.
  unfold add_key. destruct (existsb (String.eqb k) cols) eqn:E.
  - split; [tauto|]. intros [H| ->]; auto.
    apply existsb_exists in E. destruct E as (x & Hx & Hk).
    apply String.eqb_eq in Hk. now subst.
  - rewrite in_app_iff. simpl. intuition.
Qed.

Lemma fold_add_key_In (c : string) (ks cols : list string) :
  In c (fold_left add_key ks cols) <-> In c cols \/ In c ks.
Proof.
  revert cols. induction ks as [|k ks IH]; intros cols; simpl; [tauto|].
  rewrite IH, add_key_In. intuition.
Qed.

Lemma union_keys_In (c : string) (recs : list (Dict.t pyval)) :
  In c (union_keys recs) <-> exists d, In d recs /\ In c (Dict.keys d).
Proof.
  unfold union_keys.
  assert (forall cols,
             In c (fold_left (fun cols r => fold_left add_key (Dict.keys r) cols) recs cols)
             <-> In c cols \/ exists d, In d recs /\ In c (Dict.keys d)) as G.
  { induction recs as [|r recs IH]; intros cols; simpl.
    - split; [tauto|]. intros [H|(d & [] & _)]; auto.
    - rewrite IH, fold_add_key_In. split.
      + intros [[H|H]|(d & Hd & Hc)]; auto.
        * right. exists r. auto.
        * right. exists d. auto.
      + intros [H|(d & [<-|Hd] & Hc)]; auto.
        right. exists d. auto. }
  rewrite G. simpl. split; [intros [[]|H]; exact H|auto].
Qed.

Lemma project_nth (cols : list string) (d : Dict.t pyval) (j : nat) (c : string) :
  nth_error cols j = Some c ->
  nth_error (project cols d) j
  = Some (match Dict.get c d with Some v => v | None => nan end).
Proof. intros H. unfold project. now rewrite (map_nth_error _ _ _ H). Qed.


Lemma df_len_frame_of_records (recs : list (Dict.t pyval)) :
  df_len (frame_of_records recs) = List.length recs.
Proof. unfold df_len, frame_of_records. simpl. apply length_map. Qed.

(** A key a record has is a column of the frame, and the record's row
    holds the record's value there. *)
Lemma df_cell_frame_of_records (recs : list (Dict.t pyval)) (i : nat)
  (d : Dict.t pyval) (c : string) (v : pyval) :
  nth_error recs i = Some d ->
  Dict.get c d = Some v ->
  df_cell (frame_of_records recs) i c = Some v.
Proof.
  intros Hi Hc. unfold df_cell, frame_of_records. simpl.
  assert (In c (union_keys recs)) as Hin.
  { apply union_keys_In. exists d. split; [eapply nth_error_In; eauto|].
    eapply dict_get_In_keys; eauto. }
  destruct (col_index_In _ _ Hin) as [j Hj]. rewrite Hj.
  rewrite (map_nth_error _ _ _ Hi).
  rewrite (project_nth _ _ _ _ (col_index_nth _ _ _ Hj)). now rewrite Hc.
Qed.





(** On a column of strings and Nones the truth test of Python keeps
    exactly the non-empty strings. *)
Lemma links_are_text_filter (df : DataFrame) :
  links_are_text df = true ->
  filter py_truthy (df_col "detalle_url" df) = filter is_url (df_col "detalle_url" df).
Proof.
  unfold links_are_text. intros H. apply filter_ext_in. intros v Hv.
  rewrite forallb_forall in H. specialize (H v Hv).
  destruct v; try discriminate; reflexivity.
Qed.

Lemma is_url_string (v : pyval) :
  is_url v = true -> exists s, v = PStr s /\ s <> "".
Proof.
  destruct v as [| | | |s| |]; try discriminate.
  intros H. exists s. split; [reflexivity|]. now destruct s.
Qed.

(** ** The orchestrator *)

Section Orchestrator.
Context {lib : PyLib} {net : Net}.







(** *** The detail loop *)

Lemma enumerate_nth {A : Type} (l : list A) (start i : nat) (x : A) :
  nth_error l i = Some x -> nth_error (enumerate start l) i = Some ((start + i)%nat, x).
Proof.
  revert start i. induction l as [|y l IH]; intros start i H; destruct i; simpl in *;
    try discriminate.
  - inversion H. now rewrite Nat.add_0_r.
  - rewrite (IH (S start) i H). f_equal. f_equal. lia.
Qed.

Lemma enumerate_length {A : Type} (l : list A) (start : nat) :
  List.length (enumerate start l) = List.length l.
Proof. revert start. induction l; intros; simpl; auto. Qed.

Lemma enumerate_app {A : Type} (l1 l2 : list A) (start : nat) :
  enumerate start (l1 ++ l2)
  = enumerate start l1 ++ enumerate (start + List.length l1) l2.
Proof.
  revert start. induction l1 as [|x l1 IH]; intros start; simpl.
  - now rewrite Nat.add_0_r.
  - rewrite IH. do 3 f_equal. lia.
Qed.

(** One turn of the loop always yields a record, tagged with the URL and
    the position. *)
Lemma fetch_detail_total (idx : nat) (url : pyval) (w : World) :
  exists w' detail,
    fetch_detail idx url w = (w', Ok detail)
    /\ Dict.get "detalle_url" detail = Some url
    /\ Dict.get "indice" detail = Some (PStr (str_of_Z (Z.of_nat idx))).
Proof.
  unfold fetch_detail, try_except, bind, get, raise_for_status, raise, ret.
  destruct (session_get (py_str url) [] w) as [w' [msg|r]].
  - exists w'. eexists. split; [reflexivity|]. split; reflexivity.
  - destruct ((400 <=? status_code r)%nat && (status_code r <? 600)%nat).
    + exists w'. eexists. split; [reflexivity|]. split; reflexivity.
    + exists w'. eexists. split; [reflexivity|]. split.
      * rewrite dict_get_set_neq by discriminate. apply dict_get_set_eq.
      * apply dict_get_set_eq.
Qed.

(** A failed request yields the error record. *)
Lemma fetch_detail_failure (idx : nat) (url : pyval) (w w' : World) (msg : string) :
  detail_fetch_fails url w w' msg ->
  fetch_detail idx url w
  = (w', Ok [("detalle_url", url); ("error", PStr msg);
             ("indice", PStr (str_of_Z (Z.of_nat idx)))]).
Proof.
  intros [H|r H Hs ->];
    unfold fetch_detail, try_except, bind, get, raise_for_status, raise, ret;
    rewrite H; [|rewrite Hs]; reflexivity.
Qed.

(** The loop never raises: it appends one record per link, in order. *)
Lemma enrich_result (links : list (nat * pyval)) (w : World) :
  exists w' recs,
    (forall acc, enrich links acc w = (w', Ok (acc ++ recs)))
    /\ List.length recs = List.length links
    /\ forall i idx url,
        nth_error links i = Some (idx, url) ->
        exists d, nth_error recs i = Some d
                  /\ Dict.get "detalle_url" d = Some url
                  /\ Dict.get "indice" d = Some (PStr (str_of_Z (Z.of_nat idx))).
Proof.
  revert w. induction links as [|[idx url] rest IH]; intros w.
  - exists w, []. split; [|split].
    + intros acc. simpl. now rewrite app_nil_r.
    + reflexivity.
    + intros [|i] ? ? H; discriminate.
  - destruct (fetch_detail_total idx url w) as (w1 & d & Hd & Hu & Hi).
    destruct (IH w1) as (w' & recs & Hrun & Hlen & Hnth).
    exists w', (d :: recs). split; [|split].
    + intros acc. cbn [enrich]. unfold bind. rewrite Hd, Hrun.
      now rewrite <- app_assoc.
    + simpl. now rewrite Hlen.
    + intros [|i] idx' url' H; simpl in *.
      * inversion H; subst. now exists d.
      * now apply Hnth.
Qed.

Lemma enrich_split (l1 l2 : list (nat * pyval)) (w w1 : World)
  (r1 : list (Dict.t pyval)) :
  enrich l1 [] w = (w1, Ok r1) ->
  List.length r1 = List.length l1
  /\ forall acc, enrich (l1 ++ l2) acc w = enrich l2 (acc ++ r1) w1.
Proof.
  revert w r1. induction l1 as [|[idx url] l1 IH]; intros w r1 H.
  - simpl in H. inversion H; subst. split; auto.
    intros acc. simpl. now rewrite app_nil_r.
  - cbn [enrich] in H. unfold bind in H.
    destruct (fetch_detail_total idx url w) as (wa & d & Hd & _).
    rewrite Hd in H.
    destruct (enrich_result l1 wa) as (w' & recs & Hrun & Hlen & _).
    rewrite Hrun in H. inversion H; subst. clear H.
    specialize (Hrun []). simpl in Hrun.
    destruct (IH _ _ Hrun) as [_ Happ]. split.
    + simpl. now rewrite Hlen.
    + intros acc. simpl app. cbn [enrich]. unfold bind. rewrite Hd.
      rewrite Happ. now rewrite <- app_assoc.
Qed.

(** Once the summary is there, [scrape_events] returns it unchanged. *)
Lemma detail_phase_total (include_details : bool) (max_details : option Z)
  (basic_df : DataFrame) (w : World) :
  exists w' detail,
    detail_phase include_details max_details basic_df w = (w', Ok (basic_df, detail)).
Proof.
  unfold detail_phase.
  destruct (negb include_details || df_empty basic_df).
  - now exists w, empty_frame.
  - destruct (enrich_result (enumerate 1 (select_links max_details basic_df)) w)
      as (w' & recs & Hrun & _).
    exists w', (frame_of_records recs). unfold bind. now rewrite (Hrun []).
Qed.


Lemma scrape_events_details (filters : Dict.t string) (max_details : option Z)
  (w w1 : World) (basic_df : DataFrame) :
  fetch_summary filters w = (w1, Ok basic_df) ->
  df_empty basic_df = false ->
  exists w2 recs,
    scrape_events filters true max_details w
    = (w2, Ok (basic_df, frame_of_records recs))
    /\ enrich (enumerate 1 (select_links max_details basic_df)) [] w1 = (w2, Ok recs)
    /\ List.length recs = List.length (select_links max_details basic_df)
    /\ forall i url,
        nth_error (select_links max_details basic_df) i = Some url ->
        exists d, nth_error recs i = Some d
                  /\ Dict.get "detalle_url" d = Some url
                  /\ Dict.get "indice" d = Some (PStr (str_of_Z (Z.of_nat i + 1))).
Proof.
  intros Hsum Hne.
  destruct (enrich_result (enumerate 1 (select_links max_details basic_df)) w1)
    as (w2 & recs & Hrun & Hlen & Hnth).
  specialize (Hrun []). simpl in Hrun.
  exists w2, recs. split; [|split; [|split]].
  - unfold scrape_events, bind at 1. rewrite Hsum.
    unfold detail_phase. rewrite Hne. simpl. unfold bind. now rewrite Hrun.
  - exact Hrun.
  - now rewrite Hlen, enumerate_length.
  - intros i url Hi.
    destruct (Hnth i (1 + i)%nat url (enumerate_nth _ 1 i url Hi)) as (d & Hd & Hu & Hx).
    exists d. repeat split; auto.
    rewrite Hx. do 3 f_equal. lia.
Qed.

(** C2, as the code has it.  With details requested and a non-empty
    summary, the call returns; a positive [max_details] caps the number of
    detail records; [max_details = 0] is a cap of zero and gives no detail
    record; only an absent [max_details] means no cap.  When every cell of
    the "detalle_url" column is a string or None, the number of records is
    the number of non-empty detail links when there is no cap, and the
    smaller of the cap and that number under a positive cap.  The caller in
    app.py turns its 0 into the absent value before the call. *)
Theorem detail_count (filters : Dict.t string) (max_details : option Z)
  (w w1 : World) (basic_df : DataFrame) :
  fetch_summary filters w = (w1, Ok basic_df) ->
  df_empty basic_df = false ->
  exists w2 detail_df,
    scrape_events filters true max_details w = (w2, Ok (basic_df, detail_df))
    /\ (forall m, max_details = Some m -> (0 < m)%Z ->
           (df_len detail_df <= Z.to_nat m)%nat)
    /\ (max_details = Some 0%Z -> df_len detail_df = 0%nat)
    /\ (links_are_text basic_df = true ->
        (forall m, max_details = Some m -> (0 < m)%Z ->
            df_len detail_df
            = Nat.min (Z.to_nat m)
                (List.length (filter is_url (df_col "detalle_url" basic_df))))
        /\ (max_details = None ->
            df_len detail_df
            = List.length (filter is_url (df_col "detalle_url" basic_df))))
    /\ detail_limit 0 = None
    /\ (forall m, m <> 0%Z -> detail_limit m = Some m).
Proof.
  intros Hsum Hne.
  destruct (scrape_events_details filters max_details w w1 basic_df Hsum Hne)
    as (w2 & recs & Hrun & _ & Hlen & _).
  exists w2, (frame_of_records recs). split; [exact Hrun|].
  rewrite df_len_frame_of_records, Hlen. unfold select_links.
  split; [|split; [|split; [|split]]].
  - intros m -> Hm. unfold py_slice_to.
    destruct (m <? 0)%Z eqn:E; [apply Z.ltb_lt in E; lia|].
    rewrite length_firstn. lia.
  - intros ->. reflexivity.
  - intros Htext. rewrite (links_are_text_filter _ Htext). split.
    + intros m -> Hm. unfold py_slice_to.
      destruct (m <? 0)%Z eqn:E; [apply Z.ltb_lt in E; lia|].
      now rewrite length_firstn.
    + intros ->. reflexivity.
  - reflexivity.
  - intros m Hm. unfold detail_limit.
    destruct (m =? 0)%Z eqn:E; [apply Z.eqb_eq in E; contradiction|reflexivity].
Qed.


(** *** The detail links of the grid path *)

Lemma as_records_dicts (recs : list (Dict.t pyval)) :
  as_records (map PDict recs) = Some recs.
Proof. induction recs as [|d recs IH]; simpl; [|rewrite IH]; reflexivity. Qed.

Lemma df_has_frame_of_records (c : string) (recs : list (Dict.t pyval)) :
  In c (union_keys recs) -> df_has c (frame_of_records recs) = true.
Proof.
  intros H. unfold df_has. simpl. now destruct (col_index_In _ _ H) as [j ->].
Qed.


Lemma record_key_in_union (recs : list (Dict.t pyval)) (i : nat) (d : Dict.t pyval)
  (c : string) (v : pyval) :
  nth_error recs i = Some d -> Dict.get c d = Some v -> In c (union_keys recs).
Proof.
  intros Hi Hc. apply union_keys_In. exists d.
  split; [eapply nth_error_In; eauto|eapply dict_get_In_keys; eauto].
Qed.




Lemma df_len_infer_dtypes (df : DataFrame) : df_len (infer_dtypes df) = df_len df.
Proof. unfold df_len, infer_dtypes. simpl. apply length_map. Qed.

Lemma df_has_infer_dtypes (c : string) (df : DataFrame) :
  df_has c (infer_dtypes df) = df_has c df.
Proof. reflexivity. Qed.






(** The frame of the grid rows: the records, with the dtype of every
    column inferred. *)
Lemma grid_summary_of_records (filters : Dict.t string) (w w1 : World)
  (recs : list (Dict.t pyval)) :
  grid_rows filters w = (w1, Ok (map PDict recs)) ->
  fetch_summary filters w
  = (w1, Ok (add_detail_urls (infer_dtypes (frame_of_records recs)))).
Proof.
  intros H. unfold fetch_summary, try_except, grid_summary, bind, lift, ret.
  rewrite H. unfold pd_DataFrame. now rewrite as_records_dicts.
Qed.





End Orchestrator.

(* ===================================================================== *)
(** * The statements at work on concrete documents and exchanges *)
(* ===================================================================== *)

Section Runs.
Import Fixture Scenario.



(** No cap: as many detail records as non-empty links. *)
Lemma detail_count_run :
  exists w2 detail_df,
    run_scrape [] true None two_pages = (w2, Ok (two_rows, detail_df))
    /\ df_len detail_df = 2%nat.
Proof.
  destruct (detail_count (lib := Scenario.lib) (net := Fixture.net)
              [] None two_pages two_details two_rows eq_refl eq_refl)
    as (w2 & detail_df & Hrun & _ & _ & Htext & _).
  exists w2, detail_df. split; [exact Hrun|].
  destruct (Htext eq_refl) as [_ Hnone].
  rewrite (Hnone eq_refl). reflexivity.
Defined.

(** C2 fails as stated: with [max_details = 0] the summary has two
    non-empty detail links and the detail table has no row. *)
Lemma detail_count_zero_is_a_cap :
  exists w2 detail_df,
    run_scrape [] true (Some 0%Z) two_pages = (w2, Ok (two_rows, detail_df))
    /\ df_empty two_rows = false
    /\ df_col "detalle_url" two_rows = [PStr (detail_url "5"); PStr (detail_url "6")]
    /\ List.length (filter is_url (df_col "detalle_url" two_rows)) = 2%nat
    /\ df_len detail_df = 0%nat
    /\ df_len detail_df
       <> List.length (filter is_url (df_col "detalle_url" two_rows)).
Proof.
  exists two_details, empty_frame.
  repeat split; try reflexivity. discriminate.
Qed.

(** C3 does not hold of the code on a summary with an absent detail link.
    The grid answers with the rows [{"Nombre": "A"}] and
    [{"Nombre": "B", "detalle_url": "http://y"}]; the summary holds NaN
    under "detalle_url" in its first row, and its one non-empty detail link
    is "http://y".  The test [if u] keeps NaN, so the first request is made
    for "nan" and fails: the record at position 1, with "indice" "1", is the
    error record of the absent link, and the first non-empty link of the
    summary has the record at position 2, with "indice" "2". *)
Lemma absent_link_takes_first_place :
  df_col "detalle_url" absent_link_rows = [nan; PStr "http://y"]
  /\ filter is_url (df_col "detalle_url" absent_link_rows) = [PStr "http://y"]
  /\ select_links None absent_link_rows = [nan; PStr "http://y"]
  /\ exists detail_df,
      run_scrape [] true None absent_link = ([], Ok (absent_link_rows, detail_df))
      /\ df_len detail_df = 2%nat
      /\ df_cell detail_df 0 "detalle_url" = Some nan
      /\ df_cell detail_df 0 "error" = Some (PStr no_scheme)
      /\ df_cell detail_df 0 "indice" = Some (PStr "1")
      /\ df_cell detail_df 1 "detalle_url" = Some (PStr "http://y")
      /\ df_cell detail_df 1 "indice" = Some (PStr "2")
      /\ df_cell detail_df 0 "detalle_url" <> Some (PStr "http://y").
Proof.
  split; [reflexivity|]. split; [reflexivity|]. split; [reflexivity|].
  eexists. split; [reflexivity|].
  repeat split; try reflexivity. discriminate.
Qed.


(** A page without pairs yields its text. *)
Lemma parse_event_detail_nonempty_run :
  parse_event_detail (lib := Scenario.lib) "blank" = [("contenido", "v x")].
Proof.
  apply (proj2 (parse_event_detail_nonempty (lib := Scenario.lib) "blank")).
  - intros tr Hin. vm_compute in Hin. destruct Hin as [<-|[]]. reflexivity.
  - intros ls Hin. vm_compute in Hin. destruct Hin as [<-|[]]. reflexivity.
Defined.

(** A table row and a label both offer "Nombre": the row's value stays. *)
Lemma table_strategy_takes_precedence_run :
  Dict.get "Nombre" (parse_event_detail (lib := Scenario.lib) "clash") = Some "Feria A".
Proof.
  apply (table_strategy_takes_precedence (lib := Scenario.lib) "clash"
           "Nombre" "Feria A" "Feria B"
           (NTag "label" [] [NText true "Nombre:"], Some name_span)).
  - reflexivity.
  - simpl. auto.
  - reflexivity.
Defined.

(** Of two flat rows for "A" the second one decides. *)
Lemma table_strategy_last_visit_wins_run :
  Dict.get "A" (table_strategy (lib := Scenario.lib) flat_doc []) = Some "3"
  /\ table_rows flat_doc = document_rows flat_doc.
Proof.
  split.
  - apply (proj1 (table_strategy_last_visit_wins (lib := Scenario.lib) flat_doc)
             [row [cell "A"; cell "1"]; row [cell ""; cell "2"]]
             (row [cell "A"; cell "3"]) []).
    + reflexivity.
    + reflexivity.
    + intros tr' v' [].
  - apply (proj2 (proj2 (proj2
             (table_strategy_last_visit_wins (lib := Scenario.lib) flat_doc)))).
    + reflexivity.
    + intros table Hin. vm_compute in Hin. destruct Hin as [<-|[]]. reflexivity.
Defined.

(** C10 fails as stated: the table rows of [nested_doc] in document order
    are the holder row, the inner row and the outer row; the inner and the
    outer row both yield the key "A"; the outer row is the later one, and
    the result holds the value of the inner row. *)
Lemma later_row_does_not_win_when_nested :
  document_rows nested_doc = [holder_row; inner_row; outer_row]
  /\ row_pair (lib := Scenario.lib) inner_row = Some ("A", "inner")
  /\ row_pair (lib := Scenario.lib) outer_row = Some ("A", "outer")
  /\ Dict.get "A" (table_strategy (lib := Scenario.lib) nested_doc []) = Some "inner"
  /\ Dict.get "A" (parse_event_detail (lib := Scenario.lib) "nested") = Some "inner"
  /\ Dict.get "A" (parse_event_detail (lib := Scenario.lib) "nested") <> Some "outer".
Proof. repeat split; try reflexivity. discriminate. Qed.

(** The select "anio" is filed with its options. *)
Lemma extract_filter_options_entries_run :
  Dict.get "anio" (extract_filter_options (lib := Scenario.lib) "form")
  = Some [("Todos", ""); ("2025", "2025"); ("2024", "2024")].
Proof.
  apply (proj1 (proj2 (extract_filter_options_entries (lib := Scenario.lib) "form"))
           (NTag "form" [] [anio_select]) [] anio_select []).
  - reflexivity.
  - reflexivity.
  - reflexivity.
  - intros s' o' [].
Defined.

(** C7 fails as stated: the option "Todos" has an empty value and a label,
    and it is filed with the empty value, not with its label. *)
Lemma empty_value_stays_empty :
  str_strip (PyLib := Scenario.lib) (or_empty (attr "value" todos_option)) = ""
  /\ get_text (lib := Scenario.lib) "" todos_option = "Todos"
  /\ extract_filter_options (lib := Scenario.lib) "form"
     = [("anio", [("Todos", ""); ("2025", "2025"); ("2024", "2024")])]
  /\ (forall options,
         Dict.get "anio" (extract_filter_options (lib := Scenario.lib) "form")
         = Some options ->
         Dict.get "Todos" options = Some ""
         /\ Dict.get "Todos" options <> Some "Todos").
Proof.
  repeat split; try reflexivity.
  - vm_compute in H. inversion H. reflexivity.
  - vm_compute in H. inversion H. discriminate.
Qed.

(** Of the two tables of the listing page the one about events is read. *)
Lemma parse_events_table_choice_run :
  _find_results_table (lib := Scenario.lib) listing_doc = Some events_table
  /\ parse_events_table (lib := Scenario.lib) "listing"
     = frame_of_records (table_records (lib := Scenario.lib) events_table).
Proof.
  apply (proj1 (proj2 (parse_events_table_choice (lib := Scenario.lib) "listing"))
           [menu_table] events_table []).
  - reflexivity.
  - exists (NTag "th" [] [NText true "Nombre del Evento"]). split.
    + simpl. auto.
    + reflexivity.
  - intros t [<-|[]]. reflexivity.
Defined.


(** Integer identifiers with a gap: the "EventoId" column is float64, so
    the link of the row with identifier 5 is the detail path of "5.0" and
    the row without identifier gets the detail path of "nan". *)
Lemma integer_identifiers_with_a_gap :
  run_scrape [] false None gap_page
  = ([], Ok (mkDataFrame ["EventoId"; "Nombre"; "detalle_url"]
               [[PFloat (float_of_Z 5); PStr "Feria A"; PStr (detail_url "5.0")];
                [nan; PStr "Feria B"; PStr (detail_url "nan")]],
             empty_frame)).
Proof. reflexivity. Qed.


End Runs.

(* ===================================================================== *)
(** * Further properties of the code *)
(* ===================================================================== *)

(** ** Filter values *)

Lemma dict_set_absent {V : Type} (k : string) (v : V) (d : Dict.t V) :
  ~ In k (Dict.keys d) -> Dict.set k v d = d ++ [(k, v)].
Proof.
  induction d as [|[k' v'] r IH]; simpl; intros H; auto.
  destruct (String.eqb k' k) eqn:E.
  - apply String.eqb_eq in E. subst. exfalso. apply H. now left.
  - rewrite IH; auto.
Qed.

Section AssignInOrder.
Context {V X : Type} (f : X -> option (string * V)).

Lemma fold_assign_in_order (xs : list X) (acc : Dict.t V) :
  NoDup (Dict.keys (acc ++ flat_map (assigned f) xs)) ->
  fold_left (assign f) xs acc = acc ++ flat_map (assigned f) xs.
Proof.
  revert acc. induction xs as [|x xs IH]; intros acc H; simpl.
  - now rewrite app_nil_r.
  - simpl in H. unfold assign at 2. unfold assigned in H at 1. unfold assigned at 1.
    destruct (f x) as [[k v]|]; simpl in *.
    + rewrite dict_set_absent.
      * rewrite IH; rewrite <- app_assoc; auto.
      * unfold Dict.keys in *. rewrite map_app in H. simpl in H.
        apply NoDup_remove_2 in H. intros Hin. apply H. apply in_or_app. now left.
    + now apply IH.
Qed.

End AssignInOrder.

Section FilterValues.
Context {lib : PyLib}.

Lemma normalize_step_assign (cleaned : Dict.t string) (item : string * pyval) :
  normalize_step cleaned item = assign normalize_pair cleaned item.
Proof.
  unfold normalize_step, assign, normalize_pair.
  destruct (snd item) as [| | | |s| |]; try reflexivity.
  destruct (nonempty (str_strip s)); reflexivity.
Qed.

Lemma normalize_pair_key (item : string * pyval) (k v : string) :
  normalize_pair item = Some (k, v) -> k = fst item.
Proof.
  unfold normalize_pair. destruct (snd item) as [| | | |s| |];
    try (intros H; inversion H; reflexivity); try discriminate.
  destruct (nonempty (str_strip s)); [|discriminate].
  intros H; inversion H; reflexivity.
Qed.

Lemma normalized_keys_In (raw : Dict.t pyval) (k : string) :
  In k (Dict.keys (flat_map (assigned normalize_pair) raw)) -> In k (Dict.keys raw).
Proof.
  induction raw as [|item raw IH]; simpl; auto.
  unfold Dict.keys in *. rewrite map_app, in_app_iff. intros [H|H]; auto.
  left. unfold assigned in H. destruct (normalize_pair item) as [[k' v]|] eqn:E;
    simpl in H; [|contradiction].
  destruct H as [<-|[]]. symmetry. eapply normalize_pair_key; eauto.
Qed.

Lemma normalized_keys_NoDup (raw : Dict.t pyval) :
  NoDup (Dict.keys raw) -> NoDup (Dict.keys (flat_map (assigned normalize_pair) raw)).
Proof.
  induction raw as [|item raw IH]; simpl; intros H; [constructor|].
  inversion H as [|? ? Hnot Hrest]; subst.
  unfold assigned at 1. destruct (normalize_pair item) as [[k v]|] eqn:E; simpl; auto.
  constructor; auto.
  rewrite (normalize_pair_key _ _ _ E). intros Hin. apply Hnot.
  now apply normalized_keys_In.
Qed.

(** X1.  For a dictionary of raw values (its keys are distinct),
    [normalize_filter_values] keeps the items in their order and drops
    those whose value is None or a string that is blank once stripped; a
    string is kept stripped, any other value as its [str]. *)
Theorem normalize_filter_values_in_order (raw_values : Dict.t pyval) :
  NoDup (Dict.keys raw_values) ->
  normalize_filter_values raw_values
  = flat_map (fun item =>
                match snd item with
                | PNone => []
                | PStr s => if nonempty (str_strip s) then [(fst item, str_strip s)] else []
                | value => [(fst item, py_str value)]
                end) raw_values.
Proof.
  intros H. unfold normalize_filter_values.
  rewrite (fold_left_pointwise _ _ _ _ normalize_step_assign).
  rewrite (fold_assign_in_order normalize_pair); [|now apply normalized_keys_NoDup].
  simpl. apply flat_map_ext. intros item. unfold assigned, normalize_pair.
  destruct (snd item) as [| | | |s| |]; try reflexivity.
  destruct (nonempty (str_strip s)); reflexivity.
Qed.

Lemma normalize_get_source (raw_values : Dict.t pyval) (k v : string) :
  Dict.get k (normalize_filter_values raw_values) = Some v ->
  exists x, In (k, x) raw_values /\ normalize_pair (k, x) = Some (k, v).
Proof.
  unfold normalize_filter_values.
  rewrite (fold_left_pointwise _ _ _ _ normalize_step_assign). intros H.
  destruct (fold_assign_source normalize_pair k v _ _ H) as [H0|([k' x] & Hin & Hp)];
    [discriminate|].
  pose proof (normalize_pair_key _ _ _ Hp) as Hk. simpl in Hk. subst k'.
  now exists x.
Qed.

(** X2.  Every cleaned filter comes from a raw item of the same key whose
    value is not None; when that value is a string, the cleaned value is
    the stripped string and is not empty; otherwise it is the [str] of the
    value. *)
Theorem normalize_filter_values_source (raw_values : Dict.t pyval) (k v : string) :
  Dict.get k (normalize_filter_values raw_values) = Some v ->
  exists x,
    In (k, x) raw_values
    /\ x <> PNone
    /\ (forall s, x = PStr s -> v = str_strip s /\ nonempty v = true)
    /\ ((forall s, x <> PStr s) -> v = py_str x).
Proof.
  intros H. destruct (normalize_get_source _ _ _ H) as (x & Hin & Hp).
  exists x. split; [exact Hin|].
  unfold normalize_pair in Hp. simpl in Hp.
  destruct x as [| | | |s| |]; try discriminate;
    try (inversion Hp; subst;
         split; [discriminate|split; [intros s Hs; discriminate|reflexivity]]).
  destruct (nonempty (str_strip s)) eqn:E; [|discriminate].
  inversion Hp; subst. split; [discriminate|]. split.
  - intros s' Hs. inversion Hs; subst. now split.
  - intros Hno. exfalso. now apply (Hno s).
Qed.

End FilterValues.

(** ** The Excel sheet title *)

Lemma str_take_len (n : nat) (s : string) :
  str_len (str_take n s) = Nat.min n (str_len s).
Proof.
  revert n. induction s as [|c r IH]; intros n; simpl.
  - now rewrite Nat.min_0_r.
  - destruct (continuation c) eqn:E.
    + simpl. now rewrite E.
    + destruct n as [|n]; simpl; [reflexivity|]. now rewrite E, IH.
Qed.

Lemma str_take_all (n : nat) (s : string) :
  (str_len s <= n)%nat -> str_take n s = s.
Proof.
  revert n. induction s as [|c r IH]; intros n; simpl; [reflexivity|].
  destruct (continuation c).
  - intros H. now rewrite IH.
  - destruct n as [|n]; [lia|]. intros H. rewrite IH; [reflexivity|lia].
Qed.

(** The cut falls between two characters: what is left out begins with a
    leading byte. *)
Lemma str_take_split (n : nat) (s : string) :
  exists rest,
    s = String.append (str_take n s) rest
    /\ match rest with
       | EmptyString => True
       | String c _ => continuation c = false
       end.
Proof.
  revert n. induction s as [|c r IH]; intros n; simpl.
  - now exists EmptyString.
  - destruct (continuation c) eqn:E.
    + destruct (IH n) as (rest & Hs & Hrest). exists rest. simpl. now rewrite <- Hs.
    + destruct n as [|n].
      * exists (String c r). now split.
      * destruct (IH n) as (rest & Hs & Hrest). exists rest. simpl. now rewrite <- Hs.
Qed.

Lemma str_take_nonempty (n : nat) (c : ascii) (r : string) :
  nonempty (str_take (S n) (String c r)) = true.
Proof. simpl. now destruct (continuation c). Qed.

(** X3.  [dataframe_to_excel_bytes] hands the frame to the writer under
    a title that is never empty and never longer than 31 characters: the
    first 31 characters of the sheet name, cut between two characters, the
    name itself when it has at most 31, and "datos" when the name is
    empty. *)
Theorem dataframe_to_excel_bytes_title {excel : Excel} (df : DataFrame)
  (sheet_name : string) :
  exists title,
    dataframe_to_excel_bytes df sheet_name = write_sheet df title
    /\ title <> ""
    /\ (str_len title <= 31)%nat
    /\ (sheet_name = "" -> title = "datos")
    /\ (sheet_name <> "" ->
        title = str_take 31 sheet_name
        /\ str_len title = Nat.min 31 (str_len sheet_name)
        /\ exists rest,
            sheet_name = String.append title rest
            /\ match rest with
               | EmptyString => True
               | String c _ => continuation c = false
               end)
    /\ (sheet_name <> "" -> (str_len sheet_name <= 31)%nat -> title = sheet_name).
Proof.
  exists (sheet_title sheet_name). split; [reflexivity|].
  unfold sheet_title.
  destruct sheet_name as [|c r].
  - simpl. repeat split; try lia; congruence.
  - rewrite str_take_nonempty.
    split; [|split; [|split; [discriminate|split]]].
    + intros H. pose proof (str_take_nonempty 30 c r) as E. now rewrite H in E.
    + rewrite str_take_len. lia.
    + intros _. split; [reflexivity|]. split; [apply str_take_len|apply str_take_split].
    + intros _ H. now apply str_take_all.
Qed.

(** ** The caller *)

Lemma split_first_spec (sep : ascii) (s before rest : string) :
  split_first sep s = Some (before, rest) ->
  s = String.append before (String sep rest)
  /\ forall a b, before <> String.append a (String sep b).
Proof.
  revert before. induction s as [|c r IH]; intros before; simpl; [discriminate|].
  destruct (Ascii.eqb c sep) eqn:E.
  - apply Ascii.eqb_eq in E. subst. intros H. inversion H; subst. split; auto.
    intros a b Hab. destruct a; discriminate.
  - destruct (split_first sep r) as [[b0 r0]|]; [|discriminate].
    intros H. inversion H; subst. destruct (IH b0 eq_refl) as [Hs Hno].
    split; [simpl; now rewrite <- Hs|].
    intros a b Hab. destruct a as [|c' a]; simpl in Hab; inversion Hab; subst.
    + now rewrite Ascii.eqb_refl in E.
    + now apply (Hno a b).
Qed.

Lemma split_on_not_nil (sep : ascii) (s : string) : split_on sep s <> [].
Proof.
  destruct s as [|c r]; simpl; [discriminate|].
  destruct (Ascii.eqb c sep); [discriminate|].
  destruct (split_on sep r); discriminate.
Qed.

(** Joining the pieces with the separator gives the text back. *)
Lemma split_on_concat (sep : ascii) (s : string) :
  String.concat (String sep EmptyString) (split_on sep s) = s.
Proof.
  induction s as [|c r IH]; simpl; auto.
  destruct (Ascii.eqb c sep) eqn:E.
  - apply Ascii.eqb_eq in E. subst.
    pose proof (split_on_not_nil sep r) as Hne.
    destruct (split_on sep r) as [|p ps] eqn:Er; [congruence|].
    simpl. simpl in IH. now rewrite IH.
  - pose proof (split_on_not_nil sep r) as Hne.
    destruct (split_on sep r) as [|p ps] eqn:Er; [congruence|].
    simpl in *. destruct ps; simpl in *; now rewrite IH.
Qed.

Lemma dict_set_In {V : Type} (k k' : string) (v v' : V) (d : Dict.t V) :
  In (k, v) (Dict.set k' v' d) -> In (k, v) d \/ (k, v) = (k', v').
Proof.
  induction d as [|[k0 v0] d IH]; simpl.
  - intros [H|[]]. right. now inversion H.
  - destruct (String.eqb k0 k') eqn:E; simpl.
    + intros [H|H]; [|left; now right].
      apply String.eqb_eq in E. subst. right. now inversion H.
    + intros [H|H]; [left; now left|].
      destruct (IH H) as [H1|H1]; [left; now right|now right].
Qed.

(** Every item of the filled dictionary was there before or was assigned
    by an element. *)
Lemma fold_assign_In {V X : Type} (f : X -> option (string * V)) (xs : list X)
  (acc : Dict.t V) (k : string) (v : V) :
  In (k, v) (fold_left (assign f) xs acc) ->
  In (k, v) acc \/ exists x, In x xs /\ f x = Some (k, v).
Proof.
  revert acc. induction xs as [|x xs IH]; intros acc H; simpl in *; auto.
  destruct (IH _ H) as [Hacc|(y & Hy & Hf)].
  - unfold assign in Hacc. destruct (f x) as [[k' v']|] eqn:E; auto.
    destruct (dict_set_In _ _ _ _ _ Hacc) as [H1|H1]; auto.
    inversion H1; subst. right. exists x. split; [now left|assumption].
  - right. exists y. split; [now right|assumption].
Qed.

Section Caller.
Context {lib : PyLib} {net : Net}.

Lemma manual_step_assign (selected : Dict.t pyval) (pair : string) :
  manual_step selected pair = assign manual_pair selected pair.
Proof.
  unfold manual_step, assign, manual_pair.
  destruct (split_first "="%char pair) as [[key value]|]; reflexivity.
Qed.

(** X4.  The filters made of a manual text: each one has a non-empty
    value and comes from a piece of the text between commas that has an
    equals sign; its key is what stands before the first equals sign,
    stripped, and its value what stands after it, stripped.  A piece
    without an equals sign, or with nothing but blanks after it, gives no
    filter, and a blank text gives none at all. *)
Theorem manual_filters_source (manual : string) :
  (forall k v,
      Dict.get k (normalize_filter_values (manual_selection manual)) = Some v ->
      nonempty v = true
      /\ exists pair key value,
          In pair (split_on ","%char manual)
          /\ pair = String.append key (String "="%char value)
          /\ (forall a b, key <> String.append a (String "="%char b))
          /\ k = str_strip key
          /\ v = str_strip (str_strip value))
  /\ (nonempty (str_strip manual) = false ->
      normalize_filter_values (manual_selection manual) = []).
Proof.
  split.
  - intros k v H. destruct (normalize_get_source _ _ _ H) as (x & Hin & Hp).
    unfold manual_selection in Hin.
    destruct (nonempty (str_strip manual)); [|contradiction].
    rewrite (fold_left_pointwise _ _ _ _ manual_step_assign) in Hin.
    destruct (fold_assign_In _ _ _ _ _ Hin) as [[]|(pair & Hpair & Hmp)].
    unfold manual_pair in Hmp.
    destruct (split_first "="%char pair) as [[key value]|] eqn:Esf; [|discriminate].
    destruct (split_first_spec _ _ _ _ Esf) as [Hs Hno].
    inversion Hmp as [[Hk Hx]]. rewrite <- Hx in Hp.
    unfold normalize_pair in Hp. simpl in Hp.
    destruct (nonempty (str_strip (str_strip value))) eqn:En; [|discriminate].
    inversion Hp as [Hv]. split; [exact En|].
    exists pair, key, value. repeat split; auto.
  - intros Hb. unfold manual_selection. now rewrite Hb.
Qed.

(** X21.  Loading the filter options never raises: when the listing page
    is served without an error status the options are those
    [extract_filter_options] reads off it; when the request fails in
    transport or by its status they are the empty mapping. *)
Theorem load_filter_options_never_raises (w : World) :
  exists w' options,
    load_filter_options w = (w', Ok options)
    /\ (forall r,
           session_get (urljoin BASE_URL EVENTS_PATH) [] w = (w', Replied r) ->
           ((400 <=? status_code r)%nat && (status_code r <? 600)%nat) = false ->
           options = extract_filter_options (text r))
    /\ (forall msg,
           session_get (urljoin BASE_URL EVENTS_PATH) [] w = (w', Failed msg) ->
           options = [])
    /\ (forall r,
           session_get (urljoin BASE_URL EVENTS_PATH) [] w = (w', Replied r) ->
           ((400 <=? status_code r)%nat && (status_code r <? 600)%nat) = true ->
           options = []).
Proof.
  unfold load_filter_options, try_except, bind, _get_events_page, bind, get,
    raise_for_status, raise, ret.
  destruct (session_get (urljoin BASE_URL EVENTS_PATH) [] w) as [w' [msg|r]] eqn:E.
  - exists w', []. split; [reflexivity|]. split; [|split].
    + intros r H. discriminate.
    + intros msg' H. reflexivity.
    + intros r H. discriminate.
  - destruct ((400 <=? status_code r)%nat && (status_code r <? 600)%nat) eqn:Es.
    + exists w', []. split; [reflexivity|]. split; [|split].
      * intros r' H Hs. inversion H; subst. congruence.
      * intros msg H. discriminate.
      * intros r' H Hs. reflexivity.
    + exists w', (extract_filter_options (text r)). split; [reflexivity|].
      split; [|split].
      * intros r' H _. now inversion H.
      * intros msg H. discriminate.
      * intros r' H Hs. inversion H; subst. congruence.
Qed.

(** X5.  Through the submit button the number typed as maximum means:
    a positive number, that many detail records at most; and, when every
    cell of the "detalle_url" column of the summary is a string or None,
    0 means a detail record for every non-empty detail link, and a positive
    number the smaller of it and the number of those links.  (The number
    input does not go below 0.) *)
Theorem submit_detail_limit (selected : Dict.t pyval) (max_details : Z)
  (w w1 : World) (basic_df : DataFrame) :
  fetch_summary (normalize_filter_values selected) w = (w1, Ok basic_df) ->
  df_empty basic_df = false ->
  (0 <= max_details)%Z ->
  exists w2 detail_df,
    submit selected true max_details w = (w2, Ok (basic_df, detail_df))
    /\ ((0 < max_details)%Z -> (df_len detail_df <= Z.to_nat max_details)%nat)
    /\ (links_are_text basic_df = true ->
        df_len detail_df
        = if (max_details =? 0)%Z
          then List.length (filter is_url (df_col "detalle_url" basic_df))
          else Nat.min (Z.to_nat max_details)
                 (List.length (filter is_url (df_col "detalle_url" basic_df)))).
Proof.
  intros Hsum Hne Hmax. unfold submit.
  destruct (scrape_events_details _ (detail_limit max_details) w w1 basic_df Hsum Hne)
    as (w2 & recs & Hrun & _ & Hlen & _).
  exists w2, (frame_of_records recs). split; [exact Hrun|].
  rewrite df_len_frame_of_records, Hlen. unfold select_links, detail_limit.
  split.
  - intros Hpos. destruct (max_details =? 0)%Z eqn:E; [apply Z.eqb_eq in E; lia|].
    unfold py_slice_to.
    destruct (max_details <? 0)%Z eqn:E'; [apply Z.ltb_lt in E'; lia|].
    rewrite length_firstn. lia.
  - intros Htext. rewrite (links_are_text_filter _ Htext).
    destruct (max_details =? 0)%Z eqn:E; [reflexivity|].
    unfold py_slice_to.
    destruct (max_details <? 0)%Z eqn:E'; [apply Z.ltb_lt in E'; lia|].
    apply length_firstn.
Qed.

End Caller.

(** ** More on the detail page extractor *)

(** What [rstrip_colon] returns does not end in a colon. *)
Lemma rstrip_colon_no_colon (s t : string) :
  rstrip_colon s <> String.append t (String ":"%char EmptyString).
Proof.
  revert t. induction s as [|c r IH]; intros t; simpl.
  - destruct t; discriminate.
  - destruct (rstrip_colon r) as [|c' r'] eqn:Er.
    + destruct (Ascii.eqb c ":"%char) eqn:E.
      * destruct t; discriminate.
      * destruct t as [|c0 t]; simpl.
        -- intros H. inversion H; subst. now rewrite Ascii.eqb_refl in E.
        -- destruct t; discriminate.
    + destruct t as [|c0 t]; simpl; [discriminate|].
      intros H. inversion H; subst. now apply (IH t).
Qed.

(** It returns the string without the colons at its end. *)
Lemma rstrip_colon_colons (s : string) :
  exists n, s = String.append (rstrip_colon s)
                  (string_of_list_ascii (repeat ":"%char n)).
Proof.
  induction s as [|c r IHs]; simpl.
  - now exists 0%nat.
  - destruct IHs as [n IH]. destruct (rstrip_colon r) as [|c' r'] eqn:Er.
    + destruct (Ascii.eqb c ":"%char) eqn:E.
      * apply Ascii.eqb_eq in E. rewrite E. exists (S n). simpl. simpl in IH.
        congruence.
      * exists n. simpl. simpl in IH. congruence.
    + exists n. simpl. simpl in IH. congruence.
Qed.

Lemma dict_get_map_values {A B : Type} (g : A -> B) (k : string) (d : Dict.t A) :
  Dict.get k (map (fun kv => (fst kv, g (snd kv))) d)
  = match Dict.get k d with Some v => Some (g v) | None => None end.
Proof.
  induction d as [|[k' v'] d IH]; simpl; auto.
  destruct (String.eqb k' k); auto.
Qed.

Lemma dict_get_In {V : Type} (k : string) (v : V) (d : Dict.t V) :
  Dict.get k d = Some v -> In (k, v) d.
Proof.
  induction d as [|[k' v'] d IH]; simpl; [discriminate|].
  destruct (String.eqb k' k) eqn:E; intros H.
  - apply String.eqb_eq in E. inversion H; subst. now left.
  - right. auto.
Qed.

Section DetailPageMore.
Context {lib : PyLib}.

Lemma label_pair_key_nonempty (ls : node * option node) (k v : string) :
  label_pair ls = Some (k, v) -> nonempty k = true.
Proof.
  unfold label_pair.
  destruct (nonempty (rstrip_colon (get_text " " (fst ls)))) eqn:E; [|discriminate].
  match goal with |- (if ?b then _ else _) = _ -> _ => destruct b end; [|discriminate].
  intros H. inversion H; subst. exact E.
Qed.

Lemma label_step_In (data : Dict.t string) (ls : node * option node) (k v : string) :
  In (k, v) (label_step data ls) -> In (k, v) data \/ label_pair ls = Some (k, v).
Proof.
  unfold label_step. destruct (label_pair ls) as [[key value]|]; auto.
  destruct (Dict.mem key data); auto.
  intros H. destruct (dict_set_In _ _ _ _ _ H) as [H1|H1]; auto.
  right. now inversion H1.
Qed.

Lemma label_fold_In (lbls : list (node * option node)) (data : Dict.t string)
  (k v : string) :
  In (k, v) (fold_left label_step lbls data) ->
  In (k, v) data \/ exists ls, In ls lbls /\ label_pair ls = Some (k, v).
Proof.
  revert data. induction lbls as [|l lbls IH]; intros data H; simpl in *; auto.
  destruct (IH _ H) as [H1|(ls & Hls & Hp)].
  - destruct (label_step_In _ _ _ _ H1) as [H2|H2]; auto.
    right. exists l. split; [now left|assumption].
  - right. exists ls. split; [now right|assumption].
Qed.

(** X6.  Every field of [parse_event_detail] has a non-empty key, and it
    is a pair a visited table row yields, or a pair a label-like element
    offers, or the field "contenido" with the text of the page, the last
    only when no row and no label gives a pair. *)
Theorem parse_event_detail_fields (html : string) (k v : string) :
  In (k, v) (parse_event_detail html) ->
  nonempty k = true
  /\ ((exists tr, In tr (table_rows (parse_html html)) /\ row_pair tr = Some (k, v))
      \/ (exists ls, In ls (labels (parse_html html)) /\ label_pair ls = Some (k, v))
      \/ (k = "contenido" /\ v = get_text " " (parse_html html)
          /\ label_strategy (parse_html html) (table_strategy (parse_html html) []) = [])).
Proof.
  unfold parse_event_detail.
  destruct (label_strategy (parse_html html) (table_strategy (parse_html html) []))
    as [|p data] eqn:E.
  - simpl. intros [H|[]]. inversion H; subst. split; [reflexivity|]. right. right. auto.
  - rewrite <- E. unfold label_strategy, table_strategy.
    change table_step with (assign row_pair). intros H.
    destruct (label_fold_In _ _ _ _ H) as [H1|(ls & Hls & Hp)].
    + destruct (fold_assign_In _ _ _ _ _ H1) as [[]|(tr & Htr & Hp)].
      split; [eapply row_pair_key_nonempty; eauto|]. left. eauto.
    + split; [eapply label_pair_key_nonempty; eauto|]. right. left. eauto.
Qed.

Lemma label_step_other (k : string) (data : Dict.t string) (ls : node * option node) :
  Dict.get k data = None ->
  (forall v', label_pair ls <> Some (k, v')) ->
  Dict.get k (label_step data ls) = None.
Proof.
  intros H Hno. unfold label_step.
  destruct (label_pair ls) as [[key value]|] eqn:E; auto.
  destruct (Dict.mem key data); auto.
  rewrite dict_get_set_neq; auto. intros ->. now apply (Hno value).
Qed.

(** X7.  Among the label-like elements the first one that offers a key
    decides its value, provided no table row yields that key: later
    offers for the key are ignored. *)
Theorem first_label_wins (html : string) (pre : list (node * option node))
  (ls : node * option node) (post : list (node * option node)) (k v : string) :
  labels (parse_html html) = pre ++ ls :: post ->
  label_pair ls = Some (k, v) ->
  (forall ls' v', In ls' pre -> label_pair ls' <> Some (k, v')) ->
  Dict.get k (table_strategy (parse_html html) []) = None ->
  Dict.get k (parse_event_detail html) = Some v.
Proof.
  intros Hl Hp Hpre Htable.
  assert (Dict.get k (label_strategy (parse_html html)
                        (table_strategy (parse_html html) [])) = Some v) as H.
  { unfold label_strategy. rewrite Hl, fold_left_app. simpl.
    assert (Dict.get k (fold_left label_step pre (table_strategy (parse_html html) []))
            = None) as Hnone.
    { revert Htable Hpre. generalize (table_strategy (parse_html html) []) as data.
      clear Hl. induction pre as [|l pre IH]; intros data Hd Hno; simpl; auto.
      apply IH.
      - apply label_step_other; auto. intros v'. apply Hno. now left.
      - intros ls' v' Hin. apply Hno. now right. }
    assert (Dict.get k (label_step (fold_left label_step pre
                                      (table_strategy (parse_html html) [])) ls)
            = Some v) as Hset.
    { unfold label_step at 1. rewrite Hp. unfold Dict.mem. rewrite Hnone.
      apply dict_get_set_eq. }
    revert Hset. clear Hl.
    generalize (label_step (fold_left label_step pre
                              (table_strategy (parse_html html) [])) ls) as data.
    induction post as [|l post IH]; intros data Hd; simpl; auto.
    apply IH. now apply label_step_keeps. }
  rewrite parse_event_detail_data; [exact H|].
  intros E. rewrite E in H. discriminate.
Qed.

(** X8.  The key a label-like element offers is its text without the
    colons at its end: it is not empty, it does not end in a colon, and
    the text is the key followed by colons only. *)
Theorem label_key_has_no_trailing_colon (ls : node * option node) (k v : string) :
  label_pair ls = Some (k, v) ->
  nonempty k = true
  /\ (forall t, k <> String.append t (String ":"%char EmptyString))
  /\ exists n, get_text " " (fst ls)
               = String.append k (string_of_list_ascii (repeat ":"%char n)).
Proof.
  intros H. split; [eapply label_pair_key_nonempty; eauto|].
  unfold label_pair in H.
  destruct (nonempty (rstrip_colon (get_text " " (fst ls)))); [|discriminate].
  match type of H with (if ?b then _ else _) = _ => destruct b end; [|discriminate].
  inversion H; subst. split.
  - intros t. apply rstrip_colon_no_colon.
  - apply rstrip_colon_colons.
Qed.

End DetailPageMore.

(** ** More on the orchestrator *)

Lemma df_cell_frame_of_records_missing (recs : list (Dict.t pyval)) (i : nat)
  (d : Dict.t pyval) (c : string) :
  nth_error recs i = Some d ->
  Dict.get c d = None ->
  df_has c (frame_of_records recs) = true ->
  df_cell (frame_of_records recs) i c = Some nan.
Proof.
  intros Hi Hc Hhas. unfold df_has, df_cell, frame_of_records in *. simpl in *.
  destruct (col_index c (union_keys recs)) as [j|] eqn:Hj; [|discriminate].
  rewrite (map_nth_error _ _ _ Hi).
  rewrite (project_nth _ _ _ _ (col_index_nth _ _ _ Hj)). now rewrite Hc.
Qed.

Lemma firstn_prefix {A : Type} (n : nat) (l : list A) : exists rest, l = firstn n l ++ rest.
Proof. exists (skipn n l). symmetry. apply firstn_skipn. Qed.

Lemma py_range_length (a b : Z) : List.length (py_range a b) = Z.to_nat (b - a).
Proof. unfold py_range. now rewrite length_map, length_seq. Qed.

Lemma py_range_nth (a b : Z) (i : nat) (p : Z) :
  nth_error (py_range a b) i = Some p -> p = (a + Z.of_nat i)%Z.
Proof.
  unfold py_range. intros H.
  destruct (nth_error (seq 0 (Z.to_nat (b - a))) i) as [j|] eqn:E.
  - rewrite (map_nth_error _ _ _ E) in H. inversion H; subst.
    assert (i < List.length (seq 0 (Z.to_nat (b - a))))%nat as Hi
        by (apply nth_error_Some; congruence).
    rewrite length_seq in Hi.
    pose proof (nth_error_nth _ _ 0%nat E) as Hn. rewrite seq_nth in Hn by exact Hi.
    simpl in Hn. now subst.
  - apply nth_error_None in E. rewrite <- (length_map (fun i => (a + Z.of_nat i)%Z)) in E.
    apply nth_error_None in E. congruence.
Qed.

Lemma py_range_empty (a b : Z) : (b <= a)%Z -> py_range a b = [].
Proof.
  intros H. unfold py_range. replace (Z.to_nat (b - a)) with 0%nat by lia. reflexivity.
Qed.

Section OrchestratorMore.
Context {lib : PyLib} {net : Net}.

(** The record the loop makes for the link at a position is the one
    [fetch_detail] makes there. *)
Lemma scrape_events_record_at (filters : Dict.t string) (max_details : option Z)
  (w w1 : World) (basic_df : DataFrame) (pre : list pyval) (url : pyval)
  (post : list pyval) (wi wi' : World) (recs_pre : list (Dict.t pyval))
  (detail : Dict.t pyval) :
  fetch_summary filters w = (w1, Ok basic_df) ->
  df_empty basic_df = false ->
  select_links max_details basic_df = pre ++ url :: post ->
  enrich (enumerate 1 pre) [] w1 = (wi, Ok recs_pre) ->
  fetch_detail (S (List.length pre)) url wi = (wi', Ok detail) ->
  exists w2 recs,
    scrape_events filters true max_details w
    = (w2, Ok (basic_df, frame_of_records recs))
    /\ nth_error recs (List.length pre) = Some detail.
Proof.
  intros Hsum Hne Hlinks Hpre Hfetch.
  destruct (scrape_events_details filters max_details w w1 basic_df Hsum Hne)
    as (w2 & recs & Hrun & Henrich & _).
  exists w2, recs. split; [exact Hrun|].
  rewrite Hlinks, enumerate_app in Henrich.
  destruct (enrich_split _ (enumerate (1 + List.length pre) (url :: post)) _ _ _ Hpre)
    as [Hlp Happ].
  rewrite Happ in Henrich. simpl app in Henrich.
  cbn [enumerate enrich] in Henrich. unfold bind in Henrich.
  change (1 + List.length pre)%nat with (S (List.length pre)) in Henrich.
  rewrite Hfetch in Henrich.
  destruct (enrich_result (enumerate (S (S (List.length pre))) post) wi')
    as (w3 & recs_post & Hpost & _).
  rewrite Hpost in Henrich. inversion Henrich; subst.
  rewrite enumerate_length in Hlp.
  rewrite <- app_assoc. rewrite nth_error_app2 by lia.
  now rewrite Hlp, Nat.sub_diag.
Qed.

(** X9.  When the request for the selected link at position [length pre]
    is answered without an error status, the row of that link in the
    detail table carries every field parsed from the answered page, under
    its key, for every key other than "detalle_url" and "indice", the two
    keys the loop assigns afterwards. *)
Theorem parsed_fields_are_recorded (filters : Dict.t string) (max_details : option Z)
  (w w1 : World) (basic_df : DataFrame) (pre : list pyval) (url : pyval)
  (post : list pyval) (wi wi' : World) (recs_pre : list (Dict.t pyval))
  (r : Response) :
  fetch_summary filters w = (w1, Ok basic_df) ->
  df_empty basic_df = false ->
  select_links max_details basic_df = pre ++ url :: post ->
  enrich (enumerate 1 pre) [] w1 = (wi, Ok recs_pre) ->
  session_get (py_str url) [] wi = (wi', Replied r) ->
  ((400 <=? status_code r)%nat && (status_code r <? 600)%nat) = false ->
  exists w2 detail_df,
    scrape_events filters true max_details w = (w2, Ok (basic_df, detail_df))
    /\ forall k v,
        Dict.get k (parse_event_detail (text r)) = Some v ->
        k <> "detalle_url" -> k <> "indice" ->
        df_cell detail_df (List.length pre) k = Some (PStr v).
Proof.
  intros Hsum Hne Hlinks Hpre Hget Hstatus.
  assert (fetch_detail (S (List.length pre)) url wi
          = (wi', Ok (Dict.set "indice" (PStr (str_of_Z (Z.of_nat (S (List.length pre)))))
                        (Dict.set "detalle_url" url
                           (map (fun kv => (fst kv, PStr (snd kv)))
                                (parse_event_detail (text r))))))) as Hfetch.
  { unfold fetch_detail, try_except, bind, get, raise_for_status, raise, ret.
    rewrite Hget, Hstatus. reflexivity. }
  destruct (scrape_events_record_at _ _ _ _ _ _ _ _ _ _ _ _ Hsum Hne Hlinks Hpre Hfetch)
    as (w2 & recs & Hrun & Hrow).
  exists w2, (frame_of_records recs). split; [exact Hrun|].
  intros k v Hk Hu Hi. eapply df_cell_frame_of_records; [exact Hrow|].
  rewrite !dict_get_set_neq by assumption.
  rewrite dict_get_map_values. now rewrite Hk.
Qed.

(** X10.  The row of a link whose request failed holds nothing but the
    link, the error and the position: under every other column of the
    detail table its cell is absent (NaN). *)
Theorem failed_detail_has_no_fields (filters : Dict.t string) (max_details : option Z)
  (w w1 : World) (basic_df : DataFrame) (pre : list pyval) (url : pyval)
  (post : list pyval) (wi wi' : World) (recs_pre : list (Dict.t pyval)) (msg : string) :
  fetch_summary filters w = (w1, Ok basic_df) ->
  df_empty basic_df = false ->
  select_links max_details basic_df = pre ++ url :: post ->
  enrich (enumerate 1 pre) [] w1 = (wi, Ok recs_pre) ->
  detail_fetch_fails url wi wi' msg ->
  exists w2 detail_df,
    scrape_events filters true max_details w = (w2, Ok (basic_df, detail_df))
    /\ forall c,
        c <> "detalle_url" -> c <> "error" -> c <> "indice" ->
        df_has c detail_df = true ->
        df_cell detail_df (List.length pre) c = Some nan.
Proof.
  intros Hsum Hne Hlinks Hpre Hfail.
  pose proof (fetch_detail_failure (S (List.length pre)) _ _ _ _ Hfail) as Hfetch.
  destruct (scrape_events_record_at _ _ _ _ _ _ _ _ _ _ _ _ Hsum Hne Hlinks Hpre Hfetch)
    as (w2 & recs & Hrun & Hrow).
  exists w2, (frame_of_records recs). split; [exact Hrun|].
  intros c H1 H2 H3 Hhas. eapply df_cell_frame_of_records_missing; eauto.
  assert (String.eqb "detalle_url" c = false) as E1
      by (apply String.eqb_neq; congruence).
  assert (String.eqb "error" c = false) as E2 by (apply String.eqb_neq; congruence).
  assert (String.eqb "indice" c = false) as E3 by (apply String.eqb_neq; congruence).
  cbn [Dict.get]. now rewrite E1, E2, E3.
Qed.

(** X11.  When details are not requested, or the summary is empty, the
    call returns the summary with an empty detail table and the session
    is left as the summary fetch left it: no detail page is requested. *)
Theorem no_details_no_requests (filters : Dict.t string) (include_details : bool)
  (max_details : option Z) (w w1 : World) (basic_df : DataFrame) :
  fetch_summary filters w = (w1, Ok basic_df) ->
  include_details = false \/ df_empty basic_df = true ->
  scrape_events filters include_details max_details w
  = (w1, Ok (basic_df, empty_frame)).
Proof.
  intros Hsum Hor. unfold scrape_events, bind. rewrite Hsum. unfold detail_phase.
  destruct Hor as [-> | ->]; [reflexivity|].
  now rewrite orb_true_r.
Qed.

(** X12.  When every cell of the "detalle_url" column of the summary is
    a string or None, the links chosen for detail requests are an initial
    stretch of the non-empty strings of that column, in row order, and each
    of them is a non-empty string; a negative [max_details] [m] leaves out
    the last [-m] of them. *)
Theorem select_links_is_a_prefix (max_details : option Z) (basic_df : DataFrame) :
  links_are_text basic_df = true ->
  (exists rest,
      filter is_url (df_col "detalle_url" basic_df)
      = select_links max_details basic_df ++ rest)
  /\ (forall url, In url (select_links max_details basic_df) ->
         exists s, url = PStr s /\ s <> "")
  /\ (forall m, max_details = Some m -> (m < 0)%Z ->
         List.length (select_links max_details basic_df)
         = (List.length (filter is_url (df_col "detalle_url" basic_df))
            - Z.to_nat (- m))%nat).
Proof.
  intros Htext.
  assert (select_links max_details basic_df
          = match max_details with
            | Some m => py_slice_to m (filter is_url (df_col "detalle_url" basic_df))
            | None => filter is_url (df_col "detalle_url" basic_df)
            end) as E
      by (unfold select_links; now rewrite (links_are_text_filter _ Htext)).
  rewrite E.
  assert (exists rest,
             filter is_url (df_col "detalle_url" basic_df)
             = match max_details with
               | Some m => py_slice_to m (filter is_url (df_col "detalle_url" basic_df))
               | None => filter is_url (df_col "detalle_url" basic_df)
               end ++ rest) as Hpre.
  { destruct max_details as [m|]; [|exists []; now rewrite app_nil_r].
    unfold py_slice_to. destruct (m <? 0)%Z; apply firstn_prefix. }
  split; [exact Hpre|]. split.
  - intros url Hin. destruct Hpre as [rest Hrest].
    assert (In url (filter is_url (df_col "detalle_url" basic_df))) as H
        by (rewrite Hrest; apply in_or_app; now left).
    apply filter_In in H. now apply is_url_string.
  - intros m -> Hm. unfold py_slice_to.
    apply Z.ltb_lt in Hm. rewrite Hm. rewrite length_firstn. lia.
Qed.

(** X22.  With details requested, a non-empty summary, and every cell of
    its "detalle_url" column a string or None: the detail table has one row
    for each of the non-empty strings of that column, taken in row order
    and cut to [max_details] (the first [m] of them for a cap [m] that is
    not negative, all but the last [-m] for a negative one); row [i] holds
    the [i]-th of them under "detalle_url" and the string of its 1-based
    position under "indice", whether the page was parsed or the request
    failed. *)
Theorem detail_records_in_link_order (filters : Dict.t string) (max_details : option Z)
  (w w1 : World) (basic_df : DataFrame) :
  fetch_summary filters w = (w1, Ok basic_df) ->
  df_empty basic_df = false ->
  links_are_text basic_df = true ->
  exists w2 detail_df chosen,
    scrape_events filters true max_details w = (w2, Ok (basic_df, detail_df))
    /\ chosen
       = (let urls := filter is_url (df_col "detalle_url" basic_df) in
          match max_details with
          | None => urls
          | Some m =>
              if (m <? 0)%Z
              then firstn (List.length urls - Z.to_nat (- m)) urls
              else firstn (Z.to_nat m) urls
          end)
    /\ df_len detail_df = List.length chosen
    /\ forall i url,
        nth_error chosen i = Some url ->
        df_cell detail_df i "detalle_url" = Some url
        /\ df_cell detail_df i "indice" = Some (PStr (str_of_Z (Z.of_nat i + 1))).
Proof.
  intros Hsum Hne Htext.
  destruct (scrape_events_details filters max_details w w1 basic_df Hsum Hne)
    as (w2 & recs & Hrun & _ & Hlen & Hnth).
  exists w2, (frame_of_records recs), (select_links max_details basic_df).
  split; [exact Hrun|]. split; [|split].
  - unfold select_links. rewrite (links_are_text_filter _ Htext).
    destruct max_details as [m|]; reflexivity.
  - now rewrite df_len_frame_of_records.
  - intros i url Hi. destruct (Hnth i url Hi) as (d & Hd & Hu & Hx).
    split; eapply df_cell_frame_of_records; eauto.
Qed.

(** *** Pagination *)

Lemma paginate_served (filters : Dict.t string) (pages : list Z) (w w' : World)
  (more : list pyval) :
  pages_served filters pages w w' more ->
  forall rows_data, paginate filters pages rows_data w = (w', Ok (rows_data ++ more)).
Proof.
  induction 1 as [w|p rest w w1 page_data rows w' more Hp Hrows _ IH];
    intros rows_data; cbn [paginate].
  - unfold ret. now rewrite app_nil_r.
  - unfold bind. rewrite Hp. unfold lift. rewrite Hrows, IH.
    now rewrite <- app_assoc.
Qed.

Lemma paginate_ok (filters : Dict.t string) (pages : list Z) (w w' : World)
  (rows_data all : list pyval) :
  paginate filters pages rows_data w = (w', Ok all) ->
  exists more, all = rows_data ++ more /\ pages_served filters pages w w' more.
Proof.
  revert w rows_data. induction pages as [|p rest IH]; intros w rows_data H.
  - cbn [paginate] in H. unfold ret in H. inversion H; subst.
    exists []. split; [now rewrite app_nil_r|constructor].
  - cbn [paginate] in H. unfold bind in H.
    destruct (_fetch_events_grid_page filters p 100 w) as [w1 [page_data|e]] eqn:Hp;
      [|discriminate].
    unfold lift in H. destruct (page_rows page_data) as [rows|e] eqn:Hrows;
      [|discriminate].
    destruct (IH _ _ H) as (more & -> & Hserved).
    exists (rows ++ more). split; [now rewrite app_assoc|].
    econstructor; eauto.
Qed.

(** X13.  The grid path gathers its rows exactly when page 1 is fetched,
    its "total" converts to an integer, its "rows" can be iterated, and
    every page from 2 to that total, asked for in increasing order, is
    fetched and its "rows" can be iterated too; the rows are then those of
    page 1 followed by those of the later pages, page after page.  A total
    of 1 or less asks for no further page. *)
Theorem grid_rows_in_page_order (filters : Dict.t string) (w w' : World)
  (all : list pyval) :
  (grid_rows filters w = (w', Ok all)
   <-> exists w1 first_page total_pages rows more,
       _fetch_events_grid_page filters 1 100 w = (w1, Ok first_page)
       /\ py_int (py_or (py_get "total" first_page) (PInt 0)) = Ok total_pages
       /\ page_rows first_page = Ok rows
       /\ pages_served filters (py_range 2 (total_pages + 1)) w1 w' more
       /\ all = rows ++ more)
  /\ (forall total_pages,
         List.length (py_range 2 (total_pages + 1)) = Z.to_nat (total_pages - 1)
         /\ forall i p, nth_error (py_range 2 (total_pages + 1)) i = Some p ->
                        p = (2 + Z.of_nat i)%Z).
Proof.
  split; [split|].
  - unfold grid_rows, bind, lift. intros H.
    destruct (_fetch_events_grid_page filters 1 100 w) as [w1 [first_page|e]] eqn:H1;
      [|discriminate].
    destruct (py_int (py_or (py_get "total" first_page) (PInt 0))) as [t|e] eqn:Ht;
      [|discriminate].
    destruct (page_rows first_page) as [rows|e] eqn:Hr; [|discriminate].
    destruct (paginate_ok _ _ _ _ _ _ H) as (more & -> & Hserved).
    exists w1, first_page, t, rows, more. auto.
  - intros (w1 & first_page & t & rows & more & H1 & Ht & Hr & Hserved & ->).
    unfold grid_rows, bind, lift. rewrite H1, Ht, Hr.
    now apply paginate_served.
  - intros t. split.
    + rewrite py_range_length. f_equal. lia.
    + intros i p. apply py_range_nth.
Qed.

(** *** The summary of the grid path *)

Lemma col_index_app_l (c : string) (cols more : list string) (j : nat) :
  col_index c cols = Some j -> col_index c (cols ++ more) = Some j.
Proof.
  revert j. induction cols as [|c' cols IH]; intros j; simpl; [discriminate|].
  destruct (String.eqb c' c); auto.
  destruct (col_index c cols) as [j'|]; [|discriminate].
  intros H. now rewrite (IH j' eq_refl).
Qed.

Lemma df_set_col_len (c : string) (vals : list pyval) (df : DataFrame) :
  List.length vals = df_len df -> df_len (df_set_col c vals df) = df_len df.
Proof.
  intros H. unfold df_len in *. unfold df_set_col.
  destruct (col_index c (df_columns df)); simpl;
    rewrite length_map, length_combine; lia.
Qed.

Lemma df_set_col_has (c : string) (vals : list pyval) (df : DataFrame) :
  df_has c (df_set_col c vals df) = true.
Proof.
  unfold df_has, df_set_col.
  destruct (col_index c (df_columns df)) as [j|] eqn:E; simpl.
  - now rewrite E.
  - now rewrite (col_index_app_new _ _ E).
Qed.

Lemma df_set_col_keeps (c c' : string) (vals : list pyval) (df : DataFrame) :
  df_has c' df = true -> df_has c' (df_set_col c vals df) = true.
Proof.
  unfold df_has, df_set_col.
  destruct (col_index c' (df_columns df)) as [j'|] eqn:E'; [|discriminate].
  intros _. destruct (col_index c (df_columns df)); simpl.
  - now rewrite E'.
  - now rewrite (col_index_app_l _ _ _ _ E').
Qed.

Lemma df_col_len (c : string) (df : DataFrame) :
  df_has c df = true -> List.length (df_col c df) = df_len df.
Proof.
  unfold df_has, df_col, df_len.
  destruct (col_index c (df_columns df)); [|discriminate].
  intros _. apply length_map.
Qed.

Lemma add_detail_urls_shape (df : DataFrame) :
  df_len (add_detail_urls df) = df_len df
  /\ df_has "detalle_url" (add_detail_urls df) = true
  /\ forall c, df_has c df = true -> df_has c (add_detail_urls df) = true.
Proof.
  unfold add_detail_urls.
  destruct (negb (df_empty df) && df_has "EventoId" df) eqn:E.
  - apply andb_true_iff in E. destruct E as [_ E].
    split; [|split].
    + apply df_set_col_len. rewrite length_map. now apply df_col_len.
    + apply df_set_col_has.
    + intros c. apply df_set_col_keeps.
  - destruct (df_has "detalle_url" df) eqn:E'; simpl.
    + auto.
    + unfold df_set_scalar. split; [|split].
      * apply df_set_col_len. apply repeat_length.
      * apply df_set_col_has.
      * intros c. apply df_set_col_keeps.
Qed.

(** X14.  When the grid path gathers the records [recs], the call returns
    a summary with one row per record, with a column for every key of
    every record, and with a "detalle_url" column whether or not any
    record had one. *)
Theorem grid_summary_shape (filters : Dict.t string) (include_details : bool)
  (max_details : option Z) (w w1 : World) (recs : list (Dict.t pyval)) :
  grid_rows filters w = (w1, Ok (map PDict recs)) ->
  exists w2 summary detail_df,
    scrape_events filters include_details max_details w = (w2, Ok (summary, detail_df))
    /\ df_len summary = List.length recs
    /\ df_has "detalle_url" summary = true
    /\ forall d c, In d recs -> In c (Dict.keys d) -> df_has c summary = true.
Proof.
  intros Hrows.
  pose proof (grid_summary_of_records _ _ _ _ Hrows) as Hsum.
  destruct (detail_phase_total include_details max_details
              (add_detail_urls (infer_dtypes (frame_of_records recs))) w1)
    as (w2 & detail_df & Hd).
  destruct (add_detail_urls_shape (infer_dtypes (frame_of_records recs)))
    as (Hlen & Hurl & Hkeep).
  exists w2, (add_detail_urls (infer_dtypes (frame_of_records recs))), detail_df.
  split; [|split; [|split]].
  - unfold scrape_events, bind. now rewrite Hsum.
  - now rewrite Hlen, df_len_infer_dtypes, df_len_frame_of_records.
  - exact Hurl.
  - intros d c Hd' Hc. apply Hkeep. rewrite df_has_infer_dtypes.
    apply df_has_frame_of_records. apply union_keys_In. now exists d.
Qed.

(** X15.  An empty grid is not a failure: when page 1 is fetched, holds
    no row, and announces one page or fewer, the call returns a summary
    with no row and the single column "detalle_url", and an empty detail
    table, after that one fetch; there is no fallback to the listing page. *)
Theorem empty_grid_is_no_failure (filters : Dict.t string) (include_details : bool)
  (max_details : option Z) (w w1 : World) (first_page : Dict.t pyval)
  (total_pages : Z) :
  _fetch_events_grid_page filters 1 100 w = (w1, Ok first_page) ->
  py_int (py_or (py_get "total" first_page) (PInt 0)) = Ok total_pages ->
  (total_pages <= 1)%Z ->
  page_rows first_page = Ok [] ->
  scrape_events filters include_details max_details w
  = (w1, Ok (mkDataFrame ["detalle_url"] [], empty_frame)).
Proof.
  intros H1 Ht Hle Hr.
  assert (grid_rows filters w = (w1, Ok (map PDict []))) as Hrows.
  { unfold grid_rows, bind, lift. rewrite H1, Ht, Hr.
    rewrite py_range_empty by lia. reflexivity. }
  unfold scrape_events, bind. rewrite (grid_summary_of_records _ _ _ _ Hrows).
  unfold detail_phase.
  replace (add_detail_urls (infer_dtypes (frame_of_records [])))
    with (mkDataFrame ["detalle_url"] []) by reflexivity.
  now rewrite orb_true_r.
Qed.

(** X16.  A "total" that [int] rejects by its type, or that is an
    infinite float, makes the call raise (TypeError, OverflowError) right
    after page 1: the except clause does not catch it and the listing page
    is not tried.  The same holds when "total" converts to an integer and
    "rows" is a number other than zero, or [true]. *)
Theorem malformed_page_escapes (filters : Dict.t string) (include_details : bool)
  (max_details : option Z) (w w1 : World) (first_page : Dict.t pyval) :
  _fetch_events_grid_page filters 1 100 w = (w1, Ok first_page) ->
  ((exists x l, py_get "total" first_page = PList (x :: l))
   \/ (exists x l, py_get "total" first_page = PDict (x :: l))
   \/ (exists s, py_get "total" first_page = PFloat (S754_infinity s))
   \/ ((exists t, py_int (py_or (py_get "total" first_page) (PInt 0)) = Ok t)
       /\ py_truthy (py_get "rows" first_page) = true
       /\ match py_get "rows" first_page with
          | PBool _ | PInt _ | PFloat _ => True
          | _ => False
          end)) ->
  exists e,
    scrape_events filters include_details max_details w = (w1, Raise e)
    /\ isinstance_RequestException e = false
    /\ isinstance_ValueError e = false.
Proof.
  intros H1 Hbad.
  assert (exists e, grid_rows filters w = (w1, Raise e) /\ grid_catches e = false) as G.
  { unfold grid_rows, bind, lift. rewrite H1.
    destruct Hbad as [(x & l & Hv)|[(x & l & Hv)|[(s & Hv)|((t & Ht) & Htr & Hk)]]].
    - rewrite Hv. eexists. split; reflexivity.
    - rewrite Hv. eexists. split; reflexivity.
    - rewrite Hv. eexists. split; reflexivity.
    - rewrite Ht. unfold page_rows, py_or. rewrite Htr.
      destruct (py_get "rows" first_page); try contradiction;
        eexists; split; reflexivity. }
  destruct G as (e & Hrows & Hcatch). exists e.
  unfold grid_catches in Hcatch. apply orb_false_iff in Hcatch.
  split; [|exact Hcatch].
  unfold scrape_events, bind, fetch_summary, try_except, grid_summary, bind.
  rewrite Hrows. unfold grid_catches.
  destruct Hcatch as [-> ->]. reflexivity.
Qed.

(** X17.  A "total" that [int] rejects by its value (a non-empty string
    that is no integer, or NaN) raises ValueError, which the except clause
    catches: the call goes on as the fallback although page 1 was fetched. *)
Theorem unreadable_total_falls_back (filters : Dict.t string) (include_details : bool)
  (max_details : option Z) (w w1 : World) (first_page : Dict.t pyval) :
  _fetch_events_grid_page filters 1 100 w = (w1, Ok first_page) ->
  ((exists s, py_get "total" first_page = PStr s
              /\ nonempty s = true /\ int_of_str s = None)
   \/ py_get "total" first_page = PFloat S754_nan) ->
  scrape_events filters include_details max_details w
  = bind (fallback_summary filters) (detail_phase include_details max_details) w1.
Proof.
  intros H1 Hbad.
  assert (exists e, grid_rows filters w = (w1, Raise e) /\ grid_catches e = true) as G.
  { unfold grid_rows, bind, lift. rewrite H1.
    destruct Hbad as [(s & Hv & Hs & Hi)|Hv]; rewrite Hv.
    - unfold py_or. simpl py_truthy. rewrite Hs. simpl. rewrite Hi.
      eexists. split; reflexivity.
    - eexists. split; reflexivity. }
  destruct G as (e & Hrows & Hcatch).
  unfold scrape_events. unfold bind at 1.
  unfold fetch_summary, try_except, grid_summary. unfold bind at 1.
  rewrite Hrows, Hcatch. reflexivity.
Qed.

End OrchestratorMore.

(** ** More on the table extractor *)

Lemma enumerate_split {A : Type} (l : list A) (start j : nat) (x : A) :
  nth_error l j = Some x ->
  enumerate start l
  = enumerate start (firstn j l) ++ ((start + j)%nat, x)
                                      :: enumerate (S (start + j)) (skipn (S j) l).
Proof.
  revert start j. induction l as [|y l IH]; intros start j H; destruct j; simpl in *;
    try discriminate.
  - inversion H; subst. now rewrite Nat.add_0_r.
  - rewrite (IH (S start) j H).
    replace (start + S j)%nat with (S start + j)%nat by lia. reflexivity.
Qed.

Lemma enumerate_In {A : Type} (l : list A) (start i : nat) (x : A) :
  In (i, x) (enumerate start l) ->
  (start <= i)%nat /\ nth_error l (i - start) = Some x.
Proof.
  revert start. induction l as [|y l IH]; intros start; simpl; [tauto|].
  intros [H|H].
  - inversion H; subst. now rewrite Nat.sub_diag.
  - destruct (IH _ H) as [Hle Hn]. split; [lia|].
    replace (i - start)%nat with (S (i - S start)) by lia. exact Hn.
Qed.

Section TableExtractorMore.
Context {lib : PyLib}.

Lemma option_pair_key_nonempty (opt : node) (key value : string) :
  option_pair opt = Some (key, value) ->
  nonempty key = true
  /\ value = str_strip (or_empty (attr "value" opt))
  /\ (key = get_text "" opt \/ (get_text "" opt = "" /\ key = value)).
Proof.
  unfold option_pair.
  destruct (nonempty (str_strip (or_empty (attr "value" opt)))) eqn:Ev;
    destruct (nonempty (get_text "" opt)) eqn:El; simpl; try discriminate;
    intros H; inversion H; subst; repeat split; auto.
  right. split; auto. now destruct (get_text "" opt).
Qed.

(** X18.  Every entry of [extract_filter_options] comes from a select of
    the first form: its key is the non-empty name of that select (or its
    id), its options are those of that select; and every option is filed
    under a non-empty key, the label of an option element of the select or,
    when that element has no label, its value, and holds the stripped value
    of that element. *)
Theorem extract_filter_options_source (html : string) (name : string)
  (options : Dict.t string) :
  Dict.get name (extract_filter_options html) = Some options ->
  exists form select,
    find "form" (parse_html html) = Some form
    /\ In select (find_all ["select"] form)
    /\ nonempty name = true
    /\ (attr "name" select = Some name \/ attr "id" select = Some name)
    /\ forall key value,
        In (key, value) options ->
        nonempty key = true
        /\ exists opt,
            In opt (find_all ["option"] select)
            /\ value = str_strip (or_empty (attr "value" opt))
            /\ (key = get_text "" opt \/ (get_text "" opt = "" /\ key = value)).
Proof.
  unfold extract_filter_options.
  destruct (find "form" (parse_html html)) as [form|]; [|discriminate].
  rewrite (fold_left_pointwise _ _ _ _ select_entry_assign). intros H.
  destruct (fold_assign_source select_pair _ _ _ _ H) as [H0|(select & Hin & Hp)];
    [discriminate|].
  exists form, select. split; [reflexivity|]. split; [exact Hin|].
  assert (nonempty name = true
          /\ (attr "name" select = Some name \/ attr "id" select = Some name)
          /\ options = fold_left option_entry (find_all ["option"] select) [])
    as (Hn & Hattr & Hopts).
  { unfold select_pair, select_name in Hp.
    destruct (attr "name" select) as [n|] eqn:En.
    - destruct (nonempty n) eqn:E.
      + rewrite E in Hp. inversion Hp; subst. auto.
      + destruct (attr "id" select) as [i|]; [|discriminate].
        destruct (nonempty i) eqn:Ei; [|discriminate]. inversion Hp; subst. auto.
    - destruct (attr "id" select) as [i|]; [|discriminate].
      destruct (nonempty i) eqn:Ei; [|discriminate]. inversion Hp; subst. auto. }
  split; [exact Hn|]. split; [exact Hattr|].
  intros key value Hkv. rewrite Hopts in Hkv.
  rewrite (fold_left_pointwise _ _ _ _ option_entry_assign) in Hkv.
  destruct (fold_assign_In _ _ _ _ _ Hkv) as [[]|(opt & Hopt & Hpair)].
  destruct (option_pair_key_nonempty _ _ _ Hpair) as (Hk & Hv & Hl).
  split; [exact Hk|]. exists opt. auto.
Qed.

Lemma row_dict_data_cell (headers : list string) (tr : node) :
  has_data_cell tr = true ->
  exists d,
    row_dict headers tr
    = Some (Dict.set "detalle_url" (PStr (row_link tr)) d)
    /\ d = fold_left
             (assign (fun iv : nat * string =>
                        Some (column_name headers (fst iv), PStr (snd iv))))
             (enumerate 0 (map (get_text " ") (find_all ["td"] tr))) [].
Proof.
  unfold has_data_cell, row_dict, row_link.
  destruct (find_all ["td"] tr) as [|c cs]; [discriminate|].
  intros _. eexists. split; reflexivity.
Qed.

Lemma row_dict_no_data_cell (headers : list string) (tr : node) :
  has_data_cell tr = false -> row_dict headers tr = None.
Proof.
  unfold has_data_cell, row_dict.
  destruct (find_all ["td"] tr); [reflexivity|discriminate].
Qed.

Lemma table_records_rows (table : node) :
  table_records table
  = map (fun tr => match row_dict (table_headers table) tr with
                   | Some d => d
                   | None => []
                   end)
        (filter has_data_cell (find_all ["tr"] (table_body table))).
Proof.
  unfold table_records, table_headers, table_body. cbv zeta.
  generalize (map (get_text " ")
                (match find "thead" table with
                 | Some header_cells => find_all ["th"] header_cells
                 | None => find_all ["th"] table
                 end)) as headers.
  intros headers.
  generalize (find_all ["tr"] (match find "tbody" table with
                               | Some b => b
                               | None => table
                               end)) as rows.
  induction rows as [|tr rows IH]; cbn [flat_map filter map]; auto.
  destruct (has_data_cell tr) eqn:E.
  - destruct (row_dict_data_cell headers tr E) as (d & Hrow & _).
    cbn [map]. rewrite !Hrow. cbn [app]. now rewrite IH.
  - rewrite (row_dict_no_data_cell _ _ E). cbn [app]. exact IH.
Qed.

(** X19.  The table [parse_events_table] reads gives one row of the
    result for each of its rows that has a data cell, in document order,
    rows without data cells (header rows) being left out; and each row of
    the result holds under "detalle_url" the address of the first link of
    its table row made absolute, or the empty string when it has none. *)
Theorem parse_events_table_rows (html : string) (table : node) :
  _find_results_table (parse_html html) = Some table ->
  df_len (parse_events_table html)
  = List.length (filter has_data_cell (find_all ["tr"] (table_body table)))
  /\ forall i tr,
      nth_error (filter has_data_cell (find_all ["tr"] (table_body table))) i = Some tr ->
      df_cell (parse_events_table html) i "detalle_url" = Some (PStr (row_link tr)).
Proof.
  intros Ht. unfold parse_events_table. rewrite Ht.
  rewrite df_len_frame_of_records, table_records_rows. split.
  - apply length_map.
  - intros i tr Hi.
    assert (has_data_cell tr = true) as Hd.
    { apply nth_error_In in Hi. now apply filter_In in Hi. }
    destruct (row_dict_data_cell (table_headers table) tr Hd) as (d & Hrow & _).
    eapply df_cell_frame_of_records.
    + rewrite (map_nth_error _ _ _ Hi). rewrite Hrow. reflexivity.
    + apply dict_get_set_eq.
Qed.

(** X20.  In the row of the result made from a table row, the text of
    data cell [j] stands under the name of column [j]: header [j] when the
    table has that many headers, "col_" and [j+1] otherwise.  This holds
    when that name is not "detalle_url" and no later cell of the row has
    the same column name (a later one would overwrite it). *)
Theorem parse_events_table_cells (html : string) (table : node) (i : nat) (tr : node)
  (j : nat) (c : node) :
  _find_results_table (parse_html html) = Some table ->
  nth_error (filter has_data_cell (find_all ["tr"] (table_body table))) i = Some tr ->
  nth_error (find_all ["td"] tr) j = Some c ->
  column_name (table_headers table) j <> "detalle_url" ->
  (forall j', (j < j')%nat -> (j' < List.length (find_all ["td"] tr))%nat ->
              column_name (table_headers table) j' <> column_name (table_headers table) j) ->
  df_cell (parse_events_table html) i (column_name (table_headers table) j)
  = Some (PStr (get_text " " c))
  /\ column_name (table_headers table) j
     = match nth_error (table_headers table) j with
       | Some header => header
       | None => String.append "col_" (str_of_Z (Z.of_nat j + 1))
       end.
Proof.
  intros Ht Hi Hj Hurl Hlater. split; [|reflexivity].
  unfold parse_events_table. rewrite Ht. rewrite table_records_rows.
  assert (has_data_cell tr = true) as Hd.
  { apply nth_error_In in Hi. now apply filter_In in Hi. }
  destruct (row_dict_data_cell (table_headers table) tr Hd) as (d & Hrow & Hdd).
  eapply df_cell_frame_of_records.
  - rewrite (map_nth_error _ _ _ Hi). rewrite Hrow. reflexivity.
  - rewrite dict_get_set_neq by assumption. rewrite Hdd.
    pose proof (map_nth_error (get_text " ") _ _ Hj) as Hjt.
    rewrite (enumerate_split _ 0 j _ Hjt). simpl Nat.add.
    apply fold_assign_last; [reflexivity|].
    intros [j' y] v' Hin Heq. simpl in Heq. inversion Heq as [[Hname Hval]].
    destruct (enumerate_In _ _ _ _ Hin) as [Hle Hnth].
    apply (Hlater j'); [lia| |exact Hname].
    assert (j' - S j < List.length (skipn (S j) (map (get_text " ") (find_all ["td"] tr))))%nat
      as Hlen by (apply nth_error_Some; congruence).
    rewrite length_skipn, length_map in Hlen. lia.
Qed.

End TableExtractorMore.

(* ===================================================================== *)
(** * The further properties at work *)
(* ===================================================================== *)

Section MoreRuns.
Import Fixture Scenario Cases.

(** None and blank values go, the rest stays in order. *)
Lemma normalize_filter_values_in_order_run :
  normalize_filter_values (lib := Scenario.lib) raw_filters
  = [("anio", "2025"); ("pagina", "3")].
Proof.
  rewrite (normalize_filter_values_in_order (lib := Scenario.lib) raw_filters).
  - reflexivity.
  - repeat constructor; simpl; intuition discriminate.
Defined.

(** The cleaned "anio" comes from the raw one. *)
Lemma normalize_filter_values_source_run :
  exists x, In ("anio", x) raw_filters /\ x <> PNone.
Proof.
  destruct (normalize_filter_values_source (lib := Scenario.lib) raw_filters
              "anio" "2025" eq_refl) as (x & Hin & Hnone & _).
  exists x. now split.
Defined.

(** Of three pieces of manual text one gives a filter. *)
Lemma manual_filters_source_run :
  nonempty "2025" = true
  /\ exists pair key value,
      In pair (split_on ","%char manual_text)
      /\ pair = String.append key (String "="%char value)
      /\ (forall a b, key <> String.append a (String "="%char b))
      /\ "anio" = str_strip (PyLib := Scenario.lib) key
      /\ "2025" = str_strip (PyLib := Scenario.lib)
                    (str_strip (PyLib := Scenario.lib) value).
Proof.
  exact (proj1 (manual_filters_source (lib := Scenario.lib) manual_text)
           "anio" "2025" eq_refl).
Defined.

(** A maximum of 0 typed in the form asks for every detail. *)
Lemma submit_detail_limit_run :
  exists w2 detail_df,
    submit (lib := Scenario.lib) (net := Fixture.net) raw_filters true 0 two_pages
    = (w2, Ok (two_rows, detail_df))
    /\ df_len detail_df = 2%nat.
Proof.
  destruct (submit_detail_limit (lib := Scenario.lib) (net := Fixture.net)
              raw_filters 0 two_pages two_details two_rows eq_refl eq_refl)
    as (w2 & detail_df & Hrun & _ & Hlen); [lia|].
  exists w2, detail_df. split; [exact Hrun|]. rewrite (Hlen eq_refl). reflexivity.
Defined.

(** The field "Nombre" of the page "clash" comes from its table row. *)
Lemma parse_event_detail_fields_run :
  nonempty "Nombre" = true
  /\ ((exists tr, In tr (table_rows clash_doc)
                  /\ row_pair (lib := Scenario.lib) tr = Some ("Nombre", "Feria A"))
      \/ (exists ls, In ls (labels clash_doc)
                     /\ label_pair (lib := Scenario.lib) ls = Some ("Nombre", "Feria A"))
      \/ ("Nombre" = "contenido" /\ "Feria A" = get_text (lib := Scenario.lib) " " clash_doc
          /\ label_strategy (lib := Scenario.lib) clash_doc
               (table_strategy (lib := Scenario.lib) clash_doc []) = [])).
Proof.
  apply (parse_event_detail_fields (lib := Scenario.lib) "clash" "Nombre" "Feria A").
  simpl. auto.
Defined.

(** Two elements offer "Tipo": the first one's value is kept. *)
Lemma first_label_wins_run :
  Dict.get "Tipo" (parse_event_detail (lib := Cases.lib) "labels") = Some "Concierto".
Proof.
  apply (first_label_wins (lib := Cases.lib) "labels" []
           (tipo_label, Some (NText true " Concierto "))
           [(tipo_bold, Some (NText true "Feria"))]).
  - reflexivity.
  - reflexivity.
  - intros ls' v' [].
  - reflexivity.
Defined.

(** The key of the label "Tipo:" is "Tipo". *)
Lemma label_key_has_no_trailing_colon_run :
  nonempty "Tipo" = true
  /\ (forall t, "Tipo" <> String.append t (String ":"%char EmptyString))
  /\ exists n, get_text (lib := Cases.lib) " " tipo_label
               = String.append "Tipo" (string_of_list_ascii (repeat ":"%char n)).
Proof.
  apply (label_key_has_no_trailing_colon (lib := Cases.lib)
           (tipo_label, Some (NText true " Concierto ")) "Tipo" "Concierto").
  reflexivity.
Defined.

(** The served detail page gives its row the field "Nombre". *)
Lemma parsed_fields_are_recorded_run :
  exists w2 detail_df,
    run_scrape [] true None two_pages = (w2, Ok (two_rows, detail_df))
    /\ df_cell detail_df 0 "Nombre" = Some (PStr "Feria A").
Proof.
  destruct (parsed_fields_are_recorded (lib := Scenario.lib) (net := Fixture.net)
              [] None two_pages two_details two_rows
              [] (PStr (detail_url "5")) [PStr (detail_url "6")]
              two_details second_detail [] (mkResponse 200 "clash" None)
              eq_refl eq_refl eq_refl eq_refl eq_refl eq_refl)
    as (w2 & detail_df & Hrun & Hcells).
  exists w2, detail_df. split; [exact Hrun|].
  apply (Hcells "Nombre" "Feria A"); [reflexivity|discriminate|discriminate].
Defined.

(** The row of the failed request has no "Nombre". *)
Lemma failed_detail_has_no_fields_run :
  run_scrape [] true None two_pages = ([], Ok (two_rows, two_records))
  /\ df_cell two_records 1 "Nombre" = Some nan.
Proof.
  destruct (failed_detail_has_no_fields (lib := Scenario.lib) (net := Fixture.net)
              [] None two_pages two_details two_rows
              [PStr (detail_url "5")] (PStr (detail_url "6")) []
              second_detail [] [[("Nombre", PStr "Feria A");
                                 ("detalle_url", PStr (detail_url "5"));
                                 ("indice", PStr "1")]] "timeout"
              eq_refl eq_refl eq_refl eq_refl
              (detail_fails_transport (lib := Scenario.lib) (net := Fixture.net)
                 (PStr (detail_url "6")) second_detail [] "timeout" eq_refl))
    as (w2 & detail_df & Hrun & Hcells).
  assert (run_scrape [] true None two_pages = ([], Ok (two_rows, two_records))) as Hc
      by reflexivity.
  split; [exact Hc|].
  unfold run_scrape in Hc. rewrite Hc in Hrun. inversion Hrun; subst.
  apply Hcells; try discriminate. reflexivity.
Defined.

(** Without details the session stops after the summary. *)
Lemma no_details_no_requests_run :
  run_scrape [] false None two_pages = (two_details, Ok (two_rows, empty_frame)).
Proof.
  apply (no_details_no_requests (lib := Scenario.lib) (net := Fixture.net)
           [] false None two_pages two_details two_rows eq_refl).
  now left.
Defined.

(** Two grid records give a summary of two rows with a link column. *)
Lemma grid_summary_shape_run :
  exists w2 summary detail_df,
    run_scrape [] false None two_pages = (w2, Ok (summary, detail_df))
    /\ df_len summary = 2%nat
    /\ df_has "detalle_url" summary = true.
Proof.
  destruct (grid_summary_shape (lib := Scenario.lib) (net := Fixture.net)
              [] false None two_pages two_details [feria_a; feria_b] eq_refl)
    as (w2 & summary & detail_df & Hrun & Hlen & Hurl & _).
  exists w2, summary, detail_df. auto.
Defined.

(** A grid that answers [{}] gives an empty summary and no fallback. *)
Lemma empty_grid_is_no_failure_run :
  run_scrape [] true None empty_grid
  = ([], Ok (mkDataFrame ["detalle_url"] [], empty_frame)).
Proof.
  apply (empty_grid_is_no_failure (lib := Scenario.lib) (net := Fixture.net)
           [] true None empty_grid [] [] 0%Z eq_refl eq_refl); [lia|reflexivity].
Defined.

(** A list as "total" raises out of the call; the listing page stays
    unrequested. *)
Lemma malformed_page_escapes_run :
  exists e,
    run_scrape [] true None list_total
    = ([("GET", listing_url, ok_html "listing")], Raise e)
    /\ isinstance_RequestException e = false
    /\ isinstance_ValueError e = false.
Proof.
  apply (malformed_page_escapes (lib := Scenario.lib) (net := Fixture.net)
           [] true None list_total [("GET", listing_url, ok_html "listing")]
           [("total", PList [PInt 1]); ("rows", PList [])] eq_refl).
  left. now exists (PInt 1), [].
Defined.

(** A word as "total" sends the call to the listing page. *)
Lemma unreadable_total_falls_back_run :
  run_scrape [] false None word_total
  = ([], Ok (parse_events_table (lib := Scenario.lib) "listing", empty_frame)).
Proof.
  unfold run_scrape.
  rewrite (unreadable_total_falls_back (lib := Scenario.lib) (net := Fixture.net)
             [] false None word_total [("GET", listing_url, ok_html "listing")]
             [("total", PStr "abc"); ("rows", PList [])] eq_refl).
  - reflexivity.
  - left. exists "abc". repeat split; reflexivity.
Defined.

(** The entry "anio" comes from the select of the form. *)
Lemma extract_filter_options_source_run :
  exists form select,
    find "form" form_doc = Some form
    /\ In select (find_all ["select"] form)
    /\ (attr "name" select = Some "anio" \/ attr "id" select = Some "anio").
Proof.
  destruct (extract_filter_options_source (lib := Scenario.lib) "form" "anio"
              [("Todos", ""); ("2025", "2025"); ("2024", "2024")] eq_refl)
    as (form & select & Hform & Hin & _ & Hattr & _).
  exists form, select. auto.
Defined.

(** The events table has one data row, with its link. *)
Lemma parse_events_table_rows_run :
  df_len (parse_events_table (lib := Scenario.lib) "listing") = 1%nat
  /\ df_cell (parse_events_table (lib := Scenario.lib) "listing") 0 "detalle_url"
     = Some (PStr (detail_url "5")).
Proof.
  destruct (parse_events_table_rows (lib := Scenario.lib) "listing" events_table eq_refl)
    as [Hlen Hcells].
  split; [rewrite Hlen; reflexivity|].
  exact (Hcells 0%nat feria_row eq_refl).
Defined.

(** The second cell of that row, beyond the one header, is "col_2". *)
Lemma parse_events_table_cells_run :
  df_cell (parse_events_table (lib := Scenario.lib) "listing") 0 "col_2"
  = Some (PStr "ver").
Proof.
  apply (proj1 (parse_events_table_cells (lib := Scenario.lib) "listing" events_table
                  0 feria_row 1 link_cell eq_refl eq_refl eq_refl
                  ltac:(discriminate) ltac:(simpl; intros; lia))).
Defined.

(** Capped at one, the links of [two_rows] are the first of its two. *)
Lemma select_links_is_a_prefix_run :
  (exists rest,
      [PStr (detail_url "5"); PStr (detail_url "6")]
      = select_links (Some 1%Z) two_rows ++ rest)
  /\ select_links (Some 1%Z) two_rows = [PStr (detail_url "5")].
Proof.
  destruct (select_links_is_a_prefix (Some 1%Z) two_rows eq_refl) as (Hpre & _).
  split; [exact Hpre|reflexivity].
Defined.

(** The second detail record of [two_pages] belongs to the second link. *)
Lemma detail_records_in_link_order_run :
  exists w2 detail_df,
    run_scrape [] true None two_pages = (w2, Ok (two_rows, detail_df))
    /\ df_len detail_df = 2%nat
    /\ df_cell detail_df 1 "detalle_url" = Some (PStr (detail_url "6"))
    /\ df_cell detail_df 1 "indice" = Some (PStr "2").
Proof.
  destruct (detail_records_in_link_order (lib := Scenario.lib) (net := Fixture.net)
              [] None two_pages two_details two_rows eq_refl eq_refl eq_refl)
    as (w2 & detail_df & chosen & Hrun & Hchosen & Hlen & Hcells).
  exists w2, detail_df. split; [exact Hrun|].
  rewrite Hchosen in Hlen, Hcells. split; [exact Hlen|].
  exact (Hcells 1%nat (PStr (detail_url "6")) eq_refl).
Defined.

(** A sheet name of 32 characters of two bytes each is cut to 31
    characters, 62 bytes. *)
Lemma sheet_title_counts_characters :
  str_len long_name = 32%nat
  /\ sheet_title long_name = String.concat "" (repeat enie 31)
  /\ str_len (sheet_title long_name) = 31%nat
  /\ String.length (sheet_title long_name) = 62%nat.
Proof. repeat split; reflexivity. Qed.

End MoreRuns.
